(** * ContentTools: document-content processing tools

    A shallow embedding of [src/backend/kernel_tools/content_tools.py]:
    PDF text extraction, section segmentation, the summarisation and
    SharePoint stand-ins, and the reflection-based tool listing.

    Python [str] values are modelled by [string]; a character stands for
    the code point of the same number (U+0000 to U+00FF), and the Python
    built-ins used by the source are given their CPython meaning on those
    code points.  Python [int] values are modelled by [Z]. *)

From Stdlib Require Import ZArith Lia List Bool Ascii String.
From Stdlib Require Import Numbers.DecimalString Sorting.Sorted Sorting.Permutation.
Import ListNotations.
Open Scope string_scope.

(** ** Python built-ins on [str] *)

Module PyStr.

(** Characters that cannot be written inside a string literal. *)
Definition nl : string := String "010"%char "".
Definition dq : string := String "034"%char "".

Definition code (c : ascii) : N := N_of_ascii c.

Definition in_range (lo hi : N) (c : ascii) : bool :=
  ((lo <=? code c) && (code c <=? hi))%N.

(** [str.isspace] on one code point: TAB..CR, FS..US, SPACE, NEL, NBSP. *)
Definition isspace_char (c : ascii) : bool :=
  in_range 9 13 c || in_range 28 32 c ||
  (code c =? 133)%N || (code c =? 160)%N.

(** The [Uppercase] property: A..Z and the Latin-1 capitals. *)
Definition isupper_char (c : ascii) : bool :=
  in_range 65 90 c || in_range 192 214 c || in_range 216 222 c.

(** The [Lowercase] property: a..z, the ordinal indicators, the micro
    sign and the Latin-1 small letters. *)
Definition islower_char (c : ascii) : bool :=
  in_range 97 122 c || (code c =? 170)%N || (code c =? 181)%N ||
  (code c =? 186)%N || in_range 223 246 c || in_range 248 255 c.

(** No code point below U+0100 is titlecase. *)
Definition istitle_char (c : ascii) : bool := false.

Definition iscased_char (c : ascii) : bool :=
  isupper_char c || islower_char c || istitle_char c.

(** [len(s)] as a Python int. *)
Definition len (s : string) : Z := Z.of_nat (String.length s).

(** [s.isupper()]: no lower-case or titlecase character, and at least one
    upper-case character ([cased] records that one was seen). *)
Fixpoint isupper_from (cased : bool) (s : string) : bool :=
  match s with
  | EmptyString => cased
  | String c r =>
      if islower_char c || istitle_char c then false
      else isupper_from (cased || isupper_char c) r
  end.

Definition isupper (s : string) : bool := isupper_from false s.

(** [s.lstrip()], [s.rstrip()] and [s.strip()] with no argument. *)
Fixpoint lstrip (s : string) : string :=
  match s with
  | EmptyString => EmptyString
  | String c r => if isspace_char c then lstrip r else s
  end.

Fixpoint rstrip (s : string) : string :=
  match s with
  | EmptyString => EmptyString
  | String c r =>
      match rstrip r with
      | EmptyString => if isspace_char c then EmptyString else String c EmptyString
      | r' => String c r'
      end
  end.

Definition strip (s : string) : string := rstrip (lstrip s).

(** [s.split(sep)] for a one-character separator: one more piece than
    there are separators, so [''.split(sep)] is [['']]. *)
Fixpoint split (sep : ascii) (s : string) : list string :=
  match s with
  | EmptyString => [EmptyString]
  | String c r =>
      if Ascii.eqb c sep then EmptyString :: split sep r
      else match split sep r with
           | h :: t => String c h :: t
           | [] => [String c EmptyString]
           end
  end.

Definition startswith (s p : string) : bool := String.prefix p s.

Definition endswith (s suffix : string) : bool :=
  (String.length suffix <=? String.length s)%nat &&
  String.eqb
    (substring (String.length s - String.length suffix) (String.length suffix) s)
    suffix.

(** [s.replace(old, new)] where [old] and [new] are one character each. *)
Fixpoint replace (old new : ascii) (s : string) : string :=
  match s with
  | EmptyString => EmptyString
  | String c r => String (if Ascii.eqb c old then new else c) (replace old new r)
  end.

(** Simple case mappings.  The three lower-case code points whose
    upper-case form lies above U+00FF or is not a single character
    (U+00B5, U+00DF, U+00FF) and the two ordinal indicators are left as
    they are; identifiers in the source are plain ASCII. *)
Definition lower_char (c : ascii) : ascii :=
  if isupper_char c then ascii_of_N (code c + 32) else c.

Definition title_char (c : ascii) : ascii :=
  if in_range 97 122 c || in_range 224 246 c || in_range 248 254 c
  then ascii_of_N (code c - 32) else c.

(** [s.title()]: a character that follows a cased character is
    lower-cased, any other one is title-cased. *)
Fixpoint title_from (previous_is_cased : bool) (s : string) : string :=
  match s with
  | EmptyString => EmptyString
  | String c r =>
      String (if previous_is_cased then lower_char c else title_char c)
             (title_from (iscased_char c) r)
  end.

Definition title (s : string) : string := title_from false s.

(** [str(n)] for an int: decimal digits, with a leading minus sign. *)
Definition str_int (n : Z) : string := NilZero.string_of_int (Z.to_int n).

(** [sub in s]. *)
Fixpoint contains (sub s : string) : bool :=
  String.prefix sub s ||
  match s with
  | EmptyString => false
  | String _ r => contains sub r
  end.

End PyStr.

Import PyStr.

(** ** [json.dumps] *)

Module Json.

#[local] Set Warnings "-register-all".

(** The JSON-serialisable Python values built by the source: strings,
    ints, lists, and dicts with string keys in insertion order. *)
Inductive json : Type :=
| JStr (s : string)
| JInt (n : Z)
| JList (items : list json)
| JDict (items : list (string * json)).

Definition hex_digit (n : N) : ascii :=
  if (n <? 10)%N then ascii_of_N (48 + n) else ascii_of_N (87 + n).

(** ['\\u{0:04x}'.format(n)] for a code point below 256. *)
Definition u_escape (c : ascii) : string :=
  "\u00" ++ String (hex_digit (code c / 16)) (String (hex_digit (code c mod 16)) "").

(** The replacement of one character inside a JSON string: the short
    escapes, [\u00XX] for the other control characters and, when
    [ensure_ascii] is set, for everything outside SPACE..TILDE. *)
Definition escape_char (ensure_ascii : bool) (c : ascii) : string :=
  if (code c =? 34)%N then "\" ++ dq
  else if (code c =? 92)%N then "\\"
  else if (code c =? 10)%N then "\n"
  else if (code c =? 13)%N then "\r"
  else if (code c =? 9)%N then "\t"
  else if (code c =? 8)%N then "\b"
  else if (code c =? 12)%N then "\f"
  else if (code c <? 32)%N then u_escape c
  else if ensure_ascii && (126 <? code c)%N then u_escape c
  else String c "".

Fixpoint escape (ensure_ascii : bool) (s : string) : string :=
  match s with
  | EmptyString => EmptyString
  | String c r => escape_char ensure_ascii c ++ escape ensure_ascii r
  end.

Definition encode_str (ensure_ascii : bool) (s : string) : string :=
  dq ++ escape ensure_ascii s ++ dq.

Fixpoint spaces (n : nat) : string :=
  match n with
  | O => ""
  | S k => String " "%char (spaces k)
  end.

Section Encoder.

Variable ensure_ascii : bool.
Variable indent : option nat.

Definition newline_indent (level : nat) : string :=
  match indent with
  | None => ""
  | Some n => nl ++ spaces (n * level)
  end.

Definition item_separator (level : nat) : string :=
  match indent with
  | None => ", "
  | Some _ => "," ++ newline_indent level
  end.

Definition key_separator : string := ": ".

Fixpoint encode (level : nat) (j : json) : string :=
  match j with
  | JStr s => encode_str ensure_ascii s
  | JInt n => str_int n
  | JList [] => "[]"
  | JList (x :: xs) =>
      "[" ++ newline_indent (S level) ++ encode (S level) x ++
      (fix rest (l : list json) : string :=
         match l with
         | [] => ""
         | y :: ys => item_separator (S level) ++ encode (S level) y ++ rest ys
         end) xs ++
      newline_indent level ++ "]"
  | JDict [] => "{}"
  | JDict ((k, v) :: kvs) =>
      "{" ++ newline_indent (S level) ++
      encode_str ensure_ascii k ++ key_separator ++ encode (S level) v ++
      (fix rest (l : list (string * json)) : string :=
         match l with
         | [] => ""
         | (k', v') :: l' =>
             item_separator (S level) ++
             encode_str ensure_ascii k' ++ key_separator ++ encode (S level) v' ++
             rest l'
         end) kvs ++
      newline_indent level ++ "}"
  end.

End Encoder.

(** [json.dumps(obj, ensure_ascii=..., indent=...)]. *)
Definition dumps (ensure_ascii : bool) (indent : option nat) (obj : json) : string :=
  encode ensure_ascii indent 0 obj.

(** JSON text written with apostrophes in place of double quotes, for
    stating what an encoder call produces. *)
Definition json_text (s : string) : string := replace "'" "034" s.

End Json.

Import Json.

(** ** [ContentTools.parse_sections] *)

(** A section is the dict [{"title": ..., "content": ...}]. *)
Record section : Type := { title : string; content : string }.

(** The heading heuristic of the loop body, on a stripped line. *)
Definition is_heading (line : string) : bool :=
  ((len line <? 100)%Z && isupper line) ||
  ((len line <? 80)%Z && endswith line ":") ||
  existsb (fun prefix => startswith line prefix) ["#"; "Chapter"; "Section"] ||
  ((len line <? 60)%Z && negb (endswith line ".") && negb (endswith line ",")).

(** The loop state: the list [sections] and the dict [current_section]. *)
Definition loop_state : Type := (list section * section)%type.

Definition save_section (min_section_length : Z) (st : loop_state) : list section :=
  let '(sections, current_section) := st in
  if (min_section_length <=? len (content current_section))%Z
  then (sections ++ [current_section])%list
  else sections.

(** One iteration of [for line in lines]. *)
Definition parse_line (min_section_length : Z) (st : loop_state) (line : string)
  : loop_state :=
  let line := strip line in
  if String.eqb line "" then st
  else if is_heading line then
    (save_section min_section_length st, {| title := line; content := "" |})
  else
    let '(sections, current_section) := st in
    (sections, {| title := title current_section;
                  content := content current_section ++ line ++ nl |}).

Definition initial_state : loop_state :=
  ([], {| title := "Introduction"; content := "" |}).

(** The list [sections] as it stands before [json.dumps]. *)
Definition parse_sections_list (text : string) (min_section_length : Z)
  : list section :=
  let lines := split "010"%char text in
  save_section min_section_length
    (fold_left (parse_line min_section_length) lines initial_state).

Definition section_json (s : section) : json :=
  JDict [("title", JStr (title s)); ("content", JStr (content s))].

(** The tool itself.  With a [str] and an [int] argument no statement of
    the [try] block raises, so the [except] branch is never taken. *)
Definition parse_sections (text : string) (min_section_length : Z) : string :=
  dumps false None (JList (map section_json (parse_sections_list text min_section_length))).

(** ** [ContentTools.summarize_text] *)

Definition summarize_text (text : string) (max_length : Z) : string :=
  if (len text <=? max_length)%Z then text
  else
    "This is a placeholder for text summarization. In a real implementation, " ++
    "this would call the Azure OpenAI service to summarize the input text " ++
    "which is " ++ str_int (len text) ++ " characters long to a maximum of " ++
    str_int max_length ++ " characters.".

(** ** [ContentTools.get_documents_from_sharepoint] *)

Definition example_docs : json :=
  JList
    [ JDict [("name", JStr "Product_Specifications.pdf"); ("size", JStr "1.2 MB");
             ("modified", JStr "2025-07-30")];
      JDict [("name", JStr "Technical_Manual.docx"); ("size", JStr "3.5 MB");
             ("modified", JStr "2025-08-01")];
      JDict [("name", JStr "Project_Plan.xlsx"); ("size", JStr "0.8 MB");
             ("modified", JStr "2025-08-02")] ].

(** [username] and [password] default to [None]. *)
Definition get_documents_from_sharepoint
  (site_url library_name : string) (username password : option string) : string :=
  dumps false None
    (JDict [("site", JStr site_url); ("library", JStr library_name);
            ("documents", example_docs)]).

(** ** [ContentTools.extract_text_from_pdf] *)

Module Fitz.

(** What [page.get_text()] does on one page of a document. *)
Inductive page : Type :=
| GetText (text : string)
| GetTextRaises (message : string).

(** What [fitz.open(file_path)] does: it hands out a document, or raises. *)
Inductive opened : Type :=
| Opens (pages : list page)
| OpenRaises (message : string).

(** The environment of one call: [os.path.exists] and [fitz.open]. *)
Record world : Type := {
  path_exists : string -> bool;
  fitz_open : string -> opened
}.

(** An open document: its handle number and its pages. *)
Record document : Type := { handle : nat; pages : list page }.

(** The process state the tool acts on: the handles that are open, the
    number of the next handle, and what [logging.error] has written. *)
Record state : Type := {
  open_handles : list nat;
  next_handle : nat;
  error_log : list string
}.

(** A statement either completes with a value or raises an exception
    (carrying [str(e)]); either way it leaves a state behind. *)
Inductive outcome (A : Type) : Type :=
| Returns (a : A)
| Raises (message : string).

Arguments Returns {A} a.
Arguments Raises {A} message.

Definition M (A : Type) : Type := state -> outcome A * state.

Definition ret {A : Type} (a : A) : M A := fun st => (Returns a, st).

Definition raise {A : Type} (message : string) : M A := fun st => (Raises message, st).

Definition bind {A B : Type} (m : M A) (k : A -> M B) : M B :=
  fun st =>
    match m st with
    | (Returns a, st') => k a st'
    | (Raises message, st') => (Raises message, st')
    end.

(** [try: body  except Exception as e: handler(str(e))]. *)
Definition try_except {A : Type} (body : M A) (handler : string -> M A) : M A :=
  fun st =>
    match body st with
    | (Returns a, st') => (Returns a, st')
    | (Raises message, st') => handler message st'
    end.

Declare Scope monad_scope.
Delimit Scope monad_scope with monad.
Notation "x <- m ;; k" := (bind m (fun x => k))
  (at level 61, m at next level, right associativity) : monad_scope.
Notation "m ;; k" := (bind m (fun _ => k))
  (at level 61, right associativity) : monad_scope.
Local Open Scope monad_scope.

(** [doc = fitz.open(file_path)]. *)
Definition open (w : world) (file_path : string) : M document :=
  fun st =>
    match fitz_open w file_path with
    | Opens ps =>
        (Returns {| handle := next_handle st; pages := ps |},
         {| open_handles := next_handle st :: open_handles st;
            next_handle := S (next_handle st);
            error_log := error_log st |})
    | OpenRaises message => (Raises message, st)
    end.

(** [doc.close()]. *)
Definition close (doc : document) : M unit :=
  fun st =>
    (Returns tt,
     {| open_handles := List.filter (fun h => negb (Nat.eqb h (handle doc))) (open_handles st);
        next_handle := next_handle st;
        error_log := error_log st |}).

(** [page.get_text()]. *)
Definition get_text (p : page) : M string :=
  match p with
  | GetText text => ret text
  | GetTextRaises message => raise message
  end.

(** [logging.error(message)]. *)
Definition logging_error (message : string) : M unit :=
  fun st =>
    (Returns tt,
     {| open_handles := open_handles st;
        next_handle := next_handle st;
        error_log := (error_log st ++ [message])%list |}).

(** The loop [for page_num in range(len(doc)): text += doc[page_num].get_text()],
    from the pages still to visit and the text gathered so far. *)
Fixpoint extract_pages (ps : list page) (text : string) : M string :=
  match ps with
  | [] => ret text
  | p :: ps' => t <- get_text p ;; extract_pages ps' (text ++ t)
  end.

(** The body of the [try] block. *)
Definition extract_text_body (w : world) (file_path : string) : M string :=
  if negb (path_exists w file_path) then
    ret ("Error: File not found at " ++ file_path)
  else
    doc <- open w file_path ;;
    text <- extract_pages (pages doc) "" ;;
    close doc ;;
    ret text.

Definition extract_text_from_pdf (w : world) (file_path : string) : M string :=
  try_except (extract_text_body w file_path)
    (fun e =>
       logging_error ("Error extracting text from PDF: " ++ e) ;;
       ret ("Error extracting text from PDF: " ++ e)).

Definition initial : state :=
  {| open_handles := []; next_handle := 0; error_log := [] |}.

(** Every handle that is open was handed out earlier. *)
Definition handles_fresh (st : state) : Prop :=
  Forall (fun h => h < next_handle st) (open_handles st).

Definition all_readable (ps : list page) : Prop :=
  Forall (fun p => exists t, p = GetText t) ps.

End Fitz.

(** ** Reflection: [get_all_kernel_functions] and [generate_tools_json_doc] *)

Module Reflect.

(** A type annotation as the reflection code sees it: its [__name__],
    when it has one, and its [str()]. *)
Record type_hint : Type := { hint_name : option string; hint_str : string }.

Definition builtin_class (n : string) : type_hint :=
  {| hint_name := Some n; hint_str := "<class '" ++ n ++ "'>" |}.

Definition typing_alias (repr : string) : type_hint :=
  {| hint_name := None; hint_str := repr |}.

(** A parameter of a signature, with its entry in [get_type_hints] when it
    is annotated.  (A parameter declared [str = None] is taken with the
    hint [str], as [get_type_hints] gives it from Python 3.11 on.) *)
Record parameter : Type := { param_name : string; param_hint : option type_hint }.

(** The object stored as [__kernel_function__], reduced to the one
    attribute that is read from it. *)
Record marker : Type := { marker_description : option string }.

(** What [getattr(cls, name)] yields for a class attribute: a plain
    function (a [staticmethod] or an undecorated [def]), a bound method
    (a [classmethod]), or some other object. *)
Inductive member_kind : Type := PlainFunction | BoundMethod | DataAttribute.

Record method : Type := {
  name : string;
  kind : member_kind;
  doc : option string;
  kernel_function : option marker;
  parameters : list parameter;
  returns : option type_hint
}.

(** A class is the list of its attributes, in declaration order. *)
Definition class : Type := list method.

(** Python dicts with [str] keys, in insertion order. *)
Section Dict.

Context {V : Type}.

Fixpoint dict_set (d : list (string * V)) (k : string) (v : V) : list (string * V) :=
  match d with
  | [] => [(k, v)]
  | (k', v') :: d' =>
      if String.eqb k' k then (k', v) :: d' else (k', v') :: dict_set d' k v
  end.

Definition dict_keys (d : list (string * V)) : list string := map fst d.

End Dict.

(** [inspect.getmembers(cls, predicate=inspect.isfunction)]: the
    attributes that are plain functions, sorted by name. *)
Definition isfunction (m : method) : bool :=
  match kind m with
  | PlainFunction => true
  | _ => false
  end.

(** Names are ordered as Python orders [str]: by code point. *)
Definition name_le (a b : string) : Prop := String.leb a b = true.

Fixpoint insert_by_name (m : method) (l : list method) : list method :=
  match l with
  | [] => [m]
  | x :: r =>
      if String.leb (name m) (name x) then m :: l else x :: insert_by_name m r
  end.

Definition sort_by_name (l : list method) : list method :=
  fold_right insert_by_name [] l.

Definition getmembers_isfunction (cls : class) : list method :=
  sort_by_name (List.filter isfunction cls).

Definition hasattr_kernel_function (m : method) : bool :=
  match kernel_function m with
  | Some _ => true
  | None => false
  end.

(** [str(method.__annotations__)]: the annotated parameters, then
    ['return']. *)
Definition annotations (m : method) : list (string * type_hint) :=
  (flat_map (fun p => match param_hint p with
                      | Some h => [(param_name p, h)]
                      | None => []
                      end) (parameters m) ++
   match returns m with
   | Some h => [("return", h)]
   | None => []
   end)%list.

Definition str_annotations (m : method) : string :=
  "{" ++ String.concat ", "
           (map (fun kv => "'" ++ fst kv ++ "': " ++ hint_str (snd kv)) (annotations m))
      ++ "}".

Definition get_all_kernel_functions (cls : class) : list (string * method) :=
  fold_left
    (fun kernel_functions m =>
       if startswith (name m) "_" || String.eqb (name m) "get_all_kernel_functions"
       then kernel_functions
       else if hasattr_kernel_function m ||
               contains "kernel_function" (str_annotations m)
       then dict_set kernel_functions (name m) m
       else kernel_functions)
    (getmembers_isfunction cls) [].

(** [s.lower()]. *)
Fixpoint lower (s : string) : string :=
  match s with
  | EmptyString => EmptyString
  | String c r => String (lower_char c) (lower r)
  end.

(** The [type] entry of one parameter, from [get_type_hints(method)]. *)
Definition param_type (hint : option type_hint) : string :=
  match hint with
  | None => "string"
  | Some type_obj =>
      match hint_name type_obj with
      | Some n => lower n
      | None =>
          let param_type := lower (hint_str type_obj) in
          if contains "int" param_type then "int"
          else if contains "float" param_type then "float"
          else if contains "bool" param_type then "boolean"
          else "string"
      end
  end.

Definition args_dict (m : method) : list (string * json) :=
  fold_left
    (fun args_dict p =>
       if String.eqb (param_name p) "cls" || String.eqb (param_name p) "self"
       then args_dict
       else dict_set args_dict (param_name p)
              (JDict [("description", JStr (param_name p));
                      ("title", JStr (PyStr.title (replace "_" " " (param_name p))));
                      ("type", JStr (param_type (param_hint p)))]))
    (parameters m) [].

(** A truthy [str]: neither [None] nor empty. *)
Definition truthy (s : option string) : option string :=
  match s with
  | Some EmptyString => None
  | other => other
  end.

Definition description_of (m : method) : string :=
  let description :=
    match truthy (doc m) with
    | Some d => strip d
    | None => ""
    end in
  match kernel_function m with
  | Some k =>
      match truthy (marker_description k) with
      | Some d => d
      | None => description
      end
  | None => description
  end.

Record tool_entry : Type := {
  agent : string;
  function : string;
  description : string;
  arguments : string
}.

Definition make_tool_entry (agent_name : string) (m : method) : tool_entry :=
  {| agent := agent_name;
     function := name m;
     description := description_of m;
     arguments := replace "034" "'" (dumps true None (JDict (args_dict m))) |}.

(** The list [tools_list] as it stands before the final [json.dumps]. *)
Definition tools_list (agent_name : string) (cls : class) : list tool_entry :=
  fold_left
    (fun tools_list m =>
       if startswith (name m) "_" || String.eqb (name m) "generate_tools_json_doc"
       then tools_list
       else if hasattr_kernel_function m
       then (tools_list ++ [make_tool_entry agent_name m])%list
       else tools_list)
    (getmembers_isfunction cls) [].

Definition tool_entry_json (t : tool_entry) : json :=
  JDict [("agent", JStr (agent t)); ("function", JStr (function t));
         ("description", JStr (description t)); ("arguments", JStr (arguments t))].

Definition generate_tools_json_doc (agent_name : string) (cls : class) : string :=
  dumps false (Some 2) (JList (map tool_entry_json (tools_list agent_name cls))).

(** The members for which the loop of [generate_tools_json_doc] appends
    an entry. *)
Definition listed (m : method) : bool :=
  negb (startswith (name m) "_" || String.eqb (name m) "generate_tools_json_doc")
  && hasattr_kernel_function m.

(** *** The class [ContentTools] *)

Definition lines (ls : list string) : string := String.concat nl ls.

Section ContentToolsClass.

(** [AgentType.CONTENT_PROCESSING.value] and the [kernel_function]
    decorator come from modules outside this file: the name is any
    string, and the decorator attaches some marker built from the
    description it is given. *)
Variable agent_name : string.
Variable decorator : string -> marker.

Definition extract_text_from_pdf_method : method :=
  {| name := "extract_text_from_pdf";
     kind := PlainFunction;
     doc := Some (lines
         ["";
          "        Extract all text content from a PDF document.";
          "        ";
          "        Args:";
          "            file_path: The path to the PDF file to extract text from";
          "            ";
          "        Returns:";
          "            The extracted text content from all pages";
          "        "]);
     kernel_function := Some (decorator "Extract text content from a PDF document.");
     parameters := [{| param_name := "file_path"; param_hint := Some (builtin_class "str") |}];
     returns := Some (builtin_class "str") |}.

Definition parse_sections_method : method :=
  {| name := "parse_sections";
     kind := PlainFunction;
     doc := Some (lines
         ["";
          "        Parse a document text into logical sections based on headings and structure.";
          "        ";
          "        Args:";
          "            text: The document text to parse";
          "            min_section_length: Minimum character length for a section to be considered valid";
          "            ";
          "        Returns:";
          "            JSON string containing the identified sections with titles and content";
          "        "]);
     kernel_function := Some (decorator "Parse a document into logical sections based on headings and structure.");
     parameters := [{| param_name := "text"; param_hint := Some (builtin_class "str") |}; {| param_name := "min_section_length"; param_hint := Some (builtin_class "int") |}];
     returns := Some (builtin_class "str") |}.

Definition summarize_text_method : method :=
  {| name := "summarize_text";
     kind := PlainFunction;
     doc := Some (lines
         ["";
          "        Summarize text content to a specified maximum length.";
          "        Note: This is a placeholder. In a real implementation, this would use an LLM to create the summary.";
          "        ";
          "        Args:";
          "            text: The text to summarize";
          "            max_length: Maximum length for the summary in characters";
          "            ";
          "        Returns:";
          "            Summarized text";
          "        "]);
     kernel_function := Some (decorator "Summarize text content to a specified length.");
     parameters := [{| param_name := "text"; param_hint := Some (builtin_class "str") |}; {| param_name := "max_length"; param_hint := Some (builtin_class "int") |}];
     returns := Some (builtin_class "str") |}.

Definition get_documents_from_sharepoint_method : method :=
  {| name := "get_documents_from_sharepoint";
     kind := PlainFunction;
     doc := Some (lines
         ["";
          "        Connect to SharePoint and retrieve documents from a specified document library.";
          "        Note: This is a placeholder. In a real implementation, this would use Microsoft Graph API.";
          "        ";
          "        Args:";
          "            site_url: The SharePoint site URL";
          "            library_name: The document library name";
          "            username: Optional username for authentication";
          "            password: Optional password for authentication";
          "            ";
          "        Returns:";
          "            JSON string containing the list of documents found";
          "        "]);
     kernel_function := Some (decorator "Connect to SharePoint and retrieve documents from a specified library");
     parameters := [{| param_name := "site_url"; param_hint := Some (builtin_class "str") |}; {| param_name := "library_name"; param_hint := Some (builtin_class "str") |}; {| param_name := "username"; param_hint := Some (builtin_class "str") |}; {| param_name := "password"; param_hint := Some (builtin_class "str") |}];
     returns := Some (builtin_class "str") |}.

Definition extract_tables_from_pdf_method : method :=
  {| name := "extract_tables_from_pdf";
     kind := PlainFunction;
     doc := Some (lines
         ["";
          "        Extract tables from a PDF document and convert them to structured data.";
          "        Note: This is a placeholder. In a real implementation, this would use a PDF table extraction library.";
          "        ";
          "        Args:";
          "            file_path: The path to the PDF file";
          "            ";
          "        Returns:";
          "            JSON string containing the extracted tables";
          "        "]);
     kernel_function := Some (decorator "Extract tables from a PDF document as structured data");
     parameters := [{| param_name := "file_path"; param_hint := Some (builtin_class "str") |}];
     returns := Some (builtin_class "str") |}.

Definition get_all_kernel_functions_method : method :=
  {| name := "get_all_kernel_functions";
     kind := BoundMethod;
     doc := Some (lines
         ["";
          "        Returns a dictionary of all methods in this class that have the @kernel_function annotation.";
          "        ";
          "        Returns:";
          "            Dict[str, Callable]: Dictionary with function names as keys and function objects as values";
          "        "]);
     kernel_function := None;
     parameters := [];
     returns := Some (typing_alias "typing.Dict[str, typing.Callable]") |}.

Definition generate_tools_json_doc_method : method :=
  {| name := "generate_tools_json_doc";
     kind := BoundMethod;
     doc := Some (lines
         ["";
          "        Generate a JSON document containing information about all methods in the class.";
          "";
          "        Returns:";
          "            str: JSON string containing the methods' information";
          "        "]);
     kernel_function := None;
     parameters := [];
     returns := Some (builtin_class "str") |}.
Definition agent_name_attribute : method :=
  {| name := "agent_name";
     kind := DataAttribute;
     doc := None;
     kernel_function := None;
     parameters := [];
     returns := None |}.

(** The attributes of the class body, in the order they are written.
    The attributes inherited from [object] are not plain functions and
    are left out. *)
Definition ContentTools : class :=
  [ agent_name_attribute;
    extract_text_from_pdf_method;
    parse_sections_method;
    summarize_text_method;
    get_documents_from_sharepoint_method;
    extract_tables_from_pdf_method;
    get_all_kernel_functions_method;
    generate_tools_json_doc_method ].

Definition ContentTools_tools_list : list tool_entry :=
  tools_list agent_name ContentTools.

End ContentToolsClass.

End Reflect.

(** ** Auxiliary definitions for the statements *)

(** The text [summarize_text] returns for an input of [n] characters that
    exceeds [max_length]. *)
Definition placeholder (n max_length : Z) : string :=
  "This is a placeholder for text summarization. In a real implementation, this would call the Azure OpenAI service to summarize the input text which is "
  ++ str_int n ++ " characters long to a maximum of " ++ str_int max_length
  ++ " characters.".

(** [c.isalpha()]: below U+0100 the letters are the cased code points. *)
Definition isalpha_char (c : ascii) : bool := iscased_char c.

Fixpoint has_no_letter (s : string) : bool :=
  match s with
  | EmptyString => true
  | String c r => negb (isalpha_char c) && has_no_letter r
  end.

(** The lines of a text as the loop of [parse_sections] sees them:
    stripped, the empty ones skipped. *)
Definition visible_lines (text : string) : list string :=
  List.filter (fun line => negb (String.eqb line ""))
    (map strip (split "010"%char text)).

(** The heading lines of a text, in the order they appear. *)
Definition heading_lines (text : string) : list string :=
  List.filter is_heading (visible_lines text).

(** The characters of a list of lines, one line terminator each. *)
Fixpoint lines_weight (ls : list string) : Z :=
  match ls with
  | [] => 0
  | l :: r => len l + 1 + lines_weight r
  end.

(** What the loop of [parse_sections] maintains: the saved sections
    reach the minimum, and no content is longer than [bound]. *)
Definition within (min_section_length bound : Z) (st : loop_state) : Prop :=
  Forall (fun s => (min_section_length <= len (content s) <= bound)%Z) (fst st) /\
  (len (content (snd st)) <= bound)%Z.

(** The test a section must pass to be saved. *)
Definition long_enough (min_section_length : Z) (s : section) : bool :=
  (min_section_length <=? len (content s))%Z.

(** The titles a loop state holds: the saved ones, then the current one. *)
Definition titles (st : loop_state) : list string :=
  (map title (fst st) ++ [title (snd st)])%list.

(** Seventy characters, no letter, a final full stop. *)
Definition digits_line : string :=
  "123456789012345678901234567890123456789012345678901234567890123456789.".

Module Scenario.

Import Fitz.

(** A two-page document whose second page cannot be read. *)
Definition damaged_pdf : world :=
  {| path_exists := fun _ => true;
     fitz_open := fun _ => Opens [GetText "page one"; GetTextRaises "cannot read page"] |}.

(** A readable two-page document. *)
Definition sound_pdf : world :=
  {| path_exists := fun _ => true;
     fitz_open := fun _ => Opens [GetText "page one"; GetText "page two"] |}.

(** A file system on which no path exists. *)
Definition empty_disk : world :=
  {| path_exists := fun _ => false;
     fitz_open := fun _ => OpenRaises "no such file" |}.

End Scenario.

Module ReflectScenario.

Import Reflect.

(** A decorator that attaches a bare flag, without a description. *)
Definition flag_decorator (description : string) : marker :=
  {| marker_description := None |}.

(** The agent name used by the test scripts. *)
Definition test_agent_name : string := "Content_Processing_Agent".

(** A class whose two reflection helpers are plain, decorated functions. *)
Definition self_describing : class :=
  [ {| name := "get_all_kernel_functions"; kind := PlainFunction; doc := None;
       kernel_function := Some (flag_decorator "list"); parameters := [];
       returns := None |};
    {| name := "generate_tools_json_doc"; kind := PlainFunction; doc := None;
       kernel_function := Some (flag_decorator "describe"); parameters := [];
       returns := None |};
    {| name := "ping"; kind := PlainFunction; doc := None;
       kernel_function := Some (flag_decorator "ping"); parameters := [];
       returns := None |} ].

End ReflectScenario.

(** ** [parse_sections], line by line *)

Module Segment.

(** The loop body once the line is stripped and known to be non-empty. *)
Definition on_line (min_section_length : Z) (st : loop_state) (line : string)
  : loop_state :=
  if is_heading line then
    (save_section min_section_length st, {| title := line; content := "" |})
  else
    let '(sections, current_section) := st in
    (sections, {| title := title current_section;
                  content := content current_section ++ line ++ nl |}).

(** Lines joined, a line terminator after each. *)
Fixpoint body_block (ls : list string) : string :=
  match ls with
  | [] => ""
  | l :: r => l ++ nl ++ body_block r
  end.

(** The sections of a list of visible lines, short ones included: the
    section under [heading] has gathered [body] so far, and the next
    heading line closes it. *)
Fixpoint group_from (heading body : string) (ls : list string) : list section :=
  match ls with
  | [] => [{| title := heading; content := body |}]
  | l :: r =>
      if is_heading l
      then {| title := heading; content := body |} :: group_from l "" r
      else group_from heading (body ++ l ++ nl) r
  end.

Definition all_sections (text : string) : list section :=
  group_from "Introduction" "" (visible_lines text).

(** The visible lines that are not headings. *)
Definition body_lines (text : string) : list string :=
  List.filter (fun l => negb (is_heading l)) (visible_lines text).

(** The contents of a list of sections, one after the other. *)
Fixpoint total_content (l : list section) : string :=
  match l with
  | [] => ""
  | s :: r => content s ++ total_content r
  end.

(** A section whose content is made of lines of [ls], a line terminator
    after each. *)
Definition made_of (ls : list string) (s : section) : Prop :=
  exists ls', content s = body_block ls' /\ incl ls' ls.

End Segment.

(** ** [extract_text_from_pdf], outcome by outcome *)

Module Pages.

Import Fitz.

(** Texts put one after the other, with nothing in between. *)
Fixpoint joined (ts : list string) : string :=
  match ts with
  | [] => ""
  | t :: r => t ++ joined r
  end.

(** The message the [except] branch logs and returns. *)
Definition extraction_error (e : string) : string :=
  "Error extracting text from PDF: " ++ e.

(** The state after a call that opened a handle and closed it again. *)
Definition after_success (st : state) : state :=
  {| open_handles := open_handles st;
     next_handle := S (next_handle st);
     error_log := error_log st |}.

(** The state after a call that opened a handle and then failed with [e]. *)
Definition after_page_failure (e : string) (st : state) : state :=
  {| open_handles := next_handle st :: open_handles st;
     next_handle := S (next_handle st);
     error_log := (error_log st ++ [extraction_error e])%list |}.

(** The state after a call in which [fitz.open] failed with [e]. *)
Definition after_open_failure (e : string) (st : state) : state :=
  {| open_handles := open_handles st;
     next_handle := next_handle st;
     error_log := (error_log st ++ [extraction_error e])%list |}.

(** A world with one file, [path], that opens as the pages [ps]. *)
Definition one_file (path : string) (ps : list page) : world :=
  {| path_exists := fun p => String.eqb p path;
     fitz_open := fun p => if String.eqb p path then Opens ps else OpenRaises "cannot open" |}.

(** A file that exists and is not a document. *)
Definition not_a_pdf : world :=
  {| path_exists := fun _ => true;
     fitz_open := fun _ => OpenRaises "cannot open broken document" |}.

End Pages.

(** ** [ContentTools.extract_tables_from_pdf] *)

Definition example_table : json :=
  JList
    [ JList [JStr "ID"; JStr "Name"; JStr "Department"; JStr "Role"];
      JList [JStr "1"; JStr "John Smith"; JStr "Engineering"; JStr "Senior Developer"];
      JList [JStr "2"; JStr "Jane Doe"; JStr "Marketing"; JStr "Director"];
      JList [JStr "3"; JStr "Robert Johnson"; JStr "Finance"; JStr "Analyst"] ].

Definition extract_tables_from_pdf (file_path : string) : string :=
  dumps false None
    (JDict [("file", JStr file_path);
            ("tables", JList [JDict [("page", JInt 1); ("data", example_table)]])]).

(** ** Reading back an encoded string *)

Module Reader.

(** The value of a lower-case hexadecimal digit. *)
Definition hex_value (c : ascii) : option N :=
  if in_range 48 57 c then Some (code c - 48)%N
  else if in_range 97 102 c then Some (code c - 87)%N
  else None.

(** The character a short escape stands for. *)
Definition short_escape (c : ascii) : option ascii :=
  if (code c =? 34)%N then Some "034"%char
  else if (code c =? 92)%N then Some "\"%char
  else if (code c =? 110)%N then Some "010"%char
  else if (code c =? 114)%N then Some "013"%char
  else if (code c =? 116)%N then Some "009"%char
  else if (code c =? 98)%N then Some "008"%char
  else if (code c =? 102)%N then Some "012"%char
  else None.

Definition push (c : ascii) (r : option (string * string)) : option (string * string) :=
  match r with
  | Some (s, rest) => Some (String c s, rest)
  | None => None
  end.

(** Reads the inside of a JSON string up to its closing quote: the
    characters it stands for, and what follows the quote. *)
Fixpoint read_string (s : string) : option (string * string) :=
  match s with
  | EmptyString => None
  | String c r =>
      if (code c =? 34)%N then Some (EmptyString, r)
      else if (code c =? 92)%N then
        match r with
        | EmptyString => None
        | String t r1 =>
            if (code t =? 117)%N then
              match r1 with
              | String a (String b (String x (String y r2))) =>
                  match hex_value a, hex_value b, hex_value x, hex_value y with
                  | Some 0%N, Some 0%N, Some h, Some l =>
                      push (ascii_of_N (16 * h + l)) (read_string r2)
                  | _, _, _, _ => None
                  end
              | _ => None
              end
            else
              match short_escape t with
              | Some d => push d (read_string r1)
              | None => None
              end
        end
      else push c (read_string r)
  end.

End Reader.

(** ** The text of a list of sections *)

Module SectionsText.

Definition section_text (s : section) : string :=
  json_text "{'title': " ++ encode_str false (title s) ++
  json_text ", 'content': " ++ encode_str false (content s) ++ "}".

Fixpoint more_sections (l : list section) : string :=
  match l with
  | [] => ""
  | s :: r => ", " ++ section_text s ++ more_sections r
  end.

Definition sections_text (l : list section) : string :=
  match l with
  | [] => "[]"
  | s :: r => "[" ++ section_text s ++ more_sections r ++ "]"
  end.

End SectionsText.

(** ** The two reflection loops, member by member *)

Module ReflectAux.

Import Reflect.

(** The members for which the loop of [get_all_kernel_functions] sets a
    key. *)
Definition selected (m : method) : bool :=
  negb (startswith (name m) "_" || String.eqb (name m) "get_all_kernel_functions")
  && (hasattr_kernel_function m || contains "kernel_function" (str_annotations m)).



(** A function that carries no marker but whose annotations mention
    [kernel_function]. *)
Definition annotated_only : method :=
  {| name := "helper"; kind := PlainFunction; doc := None;
     kernel_function := None;
     parameters := [{| param_name := "f";
                       param_hint := Some (typing_alias "<function kernel_function at 0x1>") |}];
     returns := None |}.

End ReflectAux.

(** ** [ContentProcessingAgent] *)

Module Agent.

Import Reflect.

Definition default_system_message (agent_name : option string) : string :=
  lines
    ["You are a Content Processing Agent specialized in document extraction, parsing, and preprocessing.";
     "";
     "Your responsibilities include:";
     "1. Extracting text from various document formats (PDF, Word, etc.)";
     "2. Parsing documents into logical sections";
     "3. Processing and cleaning document content";
     "4. Summarizing document content";
     "5. Extracting structured data like tables from documents";
     "6. Connecting to external systems like SharePoint to retrieve documents";
     "";
     "Always provide clear explanations of what you're doing with documents. When extracting or processing content, explain:";
     "- The document source and type";
     "- The structure you've identified";
     "- Any preprocessing steps applied";
     "- Key sections or information extracted";
     "";
     "When asked to generate guides or documentation, work with other agents like the GuideWriterAgent to ensure content is properly formatted according to templates."].

(** [not tools]: [None] and the empty list are falsy. *)
Definition no_tools {A : Type} (tools : option (list A)) : bool :=
  match tools with
  | Some (_ :: _) => false
  | _ => true
  end.

Section ContentProcessingAgent.

(** From outside this repository part: the value of
    [AgentType.CONTENT_PROCESSING], the [kernel_function] decorator, the
    type of wrapped tools with [KernelFunction.from_method], and the
    types of the objects that are only handed on. *)
Variable CONTENT_PROCESSING : string.
Variable decorator : string -> marker.
Variable KernelFunction : Type.
Variable from_method : method -> KernelFunction.
Variable MemoryStore : Type.
Variable Client : Type.
Variable AgentDefinition : Type.

(** The keyword arguments of the call [super().__init__(...)]. *)
Record base_arguments : Type := {
  base_agent_name : string;
  base_session_id : string;
  base_user_id : string;
  base_memory_store : MemoryStore;
  base_tools : list KernelFunction;
  base_system_message : option string;
  base_client : option Client;
  base_definition : option AgentDefinition
}.

(** [__init__], up to the call of the parent initializer. *)
Definition init (session_id user_id : string) (memory_store : MemoryStore)
  (tools : option (list KernelFunction)) (system_message : option string)
  (agent_name : string) (client : option Client) (definition : option AgentDefinition)
  : base_arguments :=
  match tools with
  | Some (t :: ts) =>
      {| base_agent_name := agent_name;
         base_session_id := session_id;
         base_user_id := user_id;
         base_memory_store := memory_store;
         base_tools := t :: ts;
         base_system_message := system_message;
         base_client := client;
         base_definition := definition |}
  | _ =>
      let tools_dict := get_all_kernel_functions (ContentTools decorator) in
      let tools := map from_method (map snd tools_dict) in
      let system_message :=
        match truthy system_message with
        | Some s => Some s
        | None => Some (default_system_message (Some agent_name))
        end in
      {| base_agent_name := CONTENT_PROCESSING;
         base_session_id := session_id;
         base_user_id := user_id;
         base_memory_store := memory_store;
         base_tools := tools;
         base_system_message := system_message;
         base_client := client;
         base_definition := definition |}
  end.

(** The [plugins] property. *)
Definition plugins : list (string * method) :=
  get_all_kernel_functions (ContentTools decorator).

End ContentProcessingAgent.

End Agent.

(** * Properties *)

(** ** Facts about strings *)

Section StringFacts.

Lemma length_append (a b : string) :
  String.length (a ++ b) = String.length a + String.length b.
Proof. induction a as [|c a IH]; simpl; [reflexivity | now rewrite IH]. Qed.

Lemma append_assoc (a b c : string) : (a ++ b) ++ c = a ++ (b ++ c).
Proof. induction a as [|x a IH]; simpl; [reflexivity | now rewrite IH]. Qed.

Lemma append_nil_r (a : string) : a ++ "" = a.
Proof. induction a as [|x a IH]; simpl; [reflexivity | now rewrite IH]. Qed.

Lemma len_append (a b : string) : len (a ++ b) = (len a + len b)%Z.
Proof. unfold len. rewrite length_append. lia. Qed.

Lemma len_String (c : ascii) (s : string) : len (String c s) = (len s + 1)%Z.
Proof. unfold len. cbn [String.length]. lia. Qed.

Lemma len_nonneg (a : string) : (0 <= len a)%Z.
Proof. unfold len. lia. Qed.

Lemma prefix_append (s t : string) : String.prefix s (s ++ t) = true.
Proof.
  induction s as [|c s IH]; simpl.
  - now destruct t.
  - destruct (ascii_dec c c) as [_|ne]; [exact IH | now elim ne].
Qed.

Lemma contains_unfold (sub s : string) :
  contains sub s =
  String.prefix sub s ||
  match s with
  | EmptyString => false
  | String _ r => contains sub r
  end.
Proof. destruct s; reflexivity. Qed.

Lemma contains_here (sub t : string) : contains sub (sub ++ t) = true.
Proof. rewrite contains_unfold, prefix_append. reflexivity. Qed.

Lemma contains_later (sub a t : string) :
  contains sub t = true -> contains sub (a ++ t) = true.
Proof.
  intros H. induction a as [|c a IH]; simpl; [exact H|].
  rewrite IH. apply orb_true_r.
Qed.

Lemma contains_middle (sub a b : string) : contains sub (a ++ sub ++ b) = true.
Proof. apply contains_later, contains_here. Qed.

End StringFacts.

(** ** [summarize_text] *)

Lemma summarize_text_short (text : string) (max_length : Z) :
  (len text <= max_length)%Z -> summarize_text text max_length = text.
Proof.
  intros H. unfold summarize_text.
  destruct (Z.leb_spec (len text) max_length); [reflexivity | lia].
Qed.

Lemma summarize_text_long (text : string) (max_length : Z) :
  (max_length < len text)%Z ->
  summarize_text text max_length = placeholder (len text) max_length.
Proof.
  intros H. unfold summarize_text, placeholder.
  destruct (Z.leb_spec (len text) max_length); [lia | reflexivity].
Qed.

Lemma placeholder_names_both (n max_length : Z) :
  contains (str_int n) (placeholder n max_length) = true /\
  contains (str_int max_length) (placeholder n max_length) = true.
Proof.
  unfold placeholder. split.
  - apply contains_middle.
  - apply contains_later, contains_later, contains_middle.
Qed.

(** C5: [summarize_text] returns its input unchanged when it is no longer
    than [max_length]; otherwise it returns the fixed placeholder, which
    contains the decimal rendering of the input length and of
    [max_length].  In particular a 5-character input with limit 10 comes
    back unchanged, and a 500-character input with limit 10 gives a
    placeholder containing "500" and "10". *)
Theorem summarize_text_contract (text : string) (max_length : Z) :
  ((len text <= max_length)%Z -> summarize_text text max_length = text) /\
  ((max_length < len text)%Z ->
     summarize_text text max_length = placeholder (len text) max_length /\
     contains (str_int (len text)) (summarize_text text max_length) = true /\
     contains (str_int max_length) (summarize_text text max_length) = true) /\
  (String.length text = 5 -> summarize_text text 10 = text) /\
  (String.length text = 500 ->
     contains "500" (summarize_text text 10) = true /\
     contains "10" (summarize_text text 10) = true).
Proof.
  split; [apply summarize_text_short|].
  split.
  - intros H. rewrite (summarize_text_long _ _ H).
    split; [reflexivity | apply placeholder_names_both].
  - split.
    + intros H. apply summarize_text_short. unfold len. lia.
    + intros H. rewrite summarize_text_long by (unfold len; lia).
      replace (len text) with 500%Z by (unfold len; lia).
      apply (placeholder_names_both 500 10).
Qed.

Lemma summarize_text_contract_witness :
  summarize_text "hello" 10 = "hello" /\
  contains "500" (summarize_text (string_of_list_ascii (repeat "x"%char 500)) 10) = true /\
  contains "10" (summarize_text (string_of_list_ascii (repeat "x"%char 500)) 10) = true /\
  contains "11" (summarize_text "hello world" 10) = true.
Proof.
  split.
  - exact (proj1 (proj2 (proj2 (summarize_text_contract "hello" 10))) eq_refl).
  - split; [|split].
    + apply (proj2 (proj2 (proj2
        (summarize_text_contract (string_of_list_ascii (repeat "x"%char 500)) 10)))).
      vm_compute. reflexivity.
    + apply (proj2 (proj2 (proj2
        (summarize_text_contract (string_of_list_ascii (repeat "x"%char 500)) 10)))).
      vm_compute. reflexivity.
    + apply (proj1 (proj2 (summarize_text_contract "hello world" 10))).
      reflexivity.
Defined.

(** ** [get_documents_from_sharepoint] *)

(** C9: the listing does not depend on the credentials: calls that agree
    on [site_url] and [library_name] return the same string whatever
    [username] and [password] are (given or absent), and that string is
    always the same three-document listing with [site_url] and
    [library_name] echoed as JSON strings. *)
Theorem sharepoint_listing_ignores_credentials
  (site_url library_name : string) (username password username' password' : option string) :
  get_documents_from_sharepoint site_url library_name username password =
  get_documents_from_sharepoint site_url library_name username' password' /\
  get_documents_from_sharepoint site_url library_name username password =
  json_text "{'site': " ++ encode_str false site_url ++
  json_text ", 'library': " ++ encode_str false library_name ++
  json_text ", 'documents': [{'name': 'Product_Specifications.pdf', 'size': '1.2 MB', 'modified': '2025-07-30'}, {'name': 'Technical_Manual.docx', 'size': '3.5 MB', 'modified': '2025-08-01'}, {'name': 'Project_Plan.xlsx', 'size': '0.8 MB', 'modified': '2025-08-02'}]}".
Proof.
  split; [reflexivity|].
  unfold get_documents_from_sharepoint, dumps, example_docs.
  cbn [encode newline_indent item_separator key_separator].
  unfold encode_str.
  cbn [escape escape_char code N_of_ascii N_of_digits N.eqb N.ltb N.compare
       Pos.eqb Pos.compare Pos.compare_cont N.add N.mul Pos.add Pos.mul andb
       json_text replace Ascii.eqb Bool.eqb].
  rewrite !append_assoc. reflexivity.
Qed.

(** ** [extract_text_from_pdf] *)

Module ExtractFacts.

Import Fitz Scenario.

Lemma initial_fresh : handles_fresh initial.
Proof. constructor. Qed.

Lemma filter_fresh (n : nat) (hs : list nat) :
  Forall (fun h => h < n) hs ->
  List.filter (fun h => negb (Nat.eqb h n)) hs = hs.
Proof.
  induction 1 as [|h hs Hh _ IH]; simpl; [reflexivity|].
  destruct (Nat.eqb_spec h n); [lia|]. simpl. now rewrite IH.
Qed.

(** The page loop touches no handle and writes no log line. *)
Lemma extract_pages_state (ps : list page) (text : string) (st : state) :
  snd (extract_pages ps text st) = st.
Proof.
  revert text. induction ps as [|p ps IH]; intros text; simpl; [reflexivity|].
  unfold bind. destruct p as [t|message]; simpl; [|reflexivity].
  specialize (IH (text ++ t)).
  destruct (extract_pages ps (text ++ t) st); exact IH.
Qed.

Lemma extract_pages_readable (ps : list page) (text : string) (st : state) :
  all_readable ps -> exists text', extract_pages ps text st = (Returns text', st).
Proof.
  intros H. revert text. induction H as [|p ps [t ->] _ IH]; intros text; simpl.
  - now exists text.
  - unfold bind. simpl. apply IH.
Qed.

(** The tool catches every exception of its body. *)
Lemma extract_text_never_raises (w : world) (file_path : string) (st : state) :
  exists text st', extract_text_from_pdf w file_path st = (Returns text, st').
Proof.
  unfold extract_text_from_pdf, try_except.
  destruct (extract_text_body w file_path st) as [[text|message] st'].
  - now exists text, st'.
  - unfold bind, logging_error, ret. eauto.
Qed.

(** On the success path the handle is closed again. *)
Lemma extract_text_success_closes (w : world) (file_path : string) (ps : list page)
  (st : state) :
  path_exists w file_path = true ->
  fitz_open w file_path = Opens ps ->
  all_readable ps ->
  handles_fresh st ->
  open_handles (snd (extract_text_from_pdf w file_path st)) = open_handles st.
Proof.
  intros Hex Hopen Hps Hfresh.
  unfold extract_text_from_pdf, try_except, extract_text_body.
  rewrite Hex. simpl. unfold bind at 1, open. rewrite Hopen. simpl.
  unfold bind at 1.
  match goal with
  | |- context [extract_pages ps "" ?s] =>
      destruct (extract_pages_readable ps "" s Hps) as [text' E]; rewrite E
  end.
  simpl. destruct (Nat.eqb_spec (next_handle st) (next_handle st)); [|congruence].
  simpl. now apply filter_fresh.
Qed.

(** When [fitz.open] itself raises there is no handle to close. *)
Lemma extract_text_open_failure (w : world) (file_path message : string) (st : state) :
  path_exists w file_path = true ->
  fitz_open w file_path = OpenRaises message ->
  open_handles (snd (extract_text_from_pdf w file_path st)) = open_handles st.
Proof.
  intros Hex Hopen.
  unfold extract_text_from_pdf, try_except, extract_text_body.
  rewrite Hex. simpl. unfold bind at 1, open. rewrite Hopen. reflexivity.
Qed.

(** A readable document: both pages are returned and no handle stays open. *)
Example sound_pdf_closes_handle :
  extract_text_from_pdf sound_pdf "report.pdf" initial =
    (Returns "page onepage two",
     {| open_handles := []; next_handle := 1; error_log := [] |}).
Proof. reflexivity. Qed.

(** C1 (fails on the code): on an existing file whose second page raises
    in [get_text], the call returns the error string while the handle it
    opened (number 0) is still open: [doc.close()] is only reached when
    the page loop completes. *)
Theorem extract_text_page_error_leaks_handle :
  extract_text_from_pdf damaged_pdf "report.pdf" initial =
    (Returns "Error extracting text from PDF: cannot read page",
     {| open_handles := [0];
        next_handle := 1;
        error_log := ["Error extracting text from PDF: cannot read page"] |}) /\
  ~ (forall (w : world) (file_path : string) (st : state),
       path_exists w file_path = true ->
       handles_fresh st ->
       open_handles (snd (extract_text_from_pdf w file_path st)) = open_handles st).
Proof.
  split; [reflexivity|].
  intros H. specialize (H damaged_pdf "report.pdf" initial eq_refl initial_fresh).
  discriminate H.
Qed.

(** C6: for a path that does not exist the call returns the not-found
    message followed by the path; it does not raise, opens no handle and
    logs nothing. *)
Theorem extract_text_missing_file (w : world) (file_path : string) (st : state) :
  path_exists w file_path = false ->
  extract_text_from_pdf w file_path st =
    (Returns ("Error: File not found at " ++ file_path), st).
Proof.
  intros H. unfold extract_text_from_pdf, try_except, extract_text_body.
  rewrite H. reflexivity.
Qed.

Lemma extract_text_missing_file_witness :
  path_exists empty_disk "missing.pdf" = false /\
  extract_text_from_pdf empty_disk "missing.pdf" initial =
    (Returns "Error: File not found at missing.pdf", initial).
Proof.
  split; [reflexivity|].
  apply (extract_text_missing_file empty_disk "missing.pdf" initial). reflexivity.
Defined.

End ExtractFacts.

(** ** Reflection *)

Module ReflectFacts.

Import Reflect ReflectScenario.

Local Open Scope list_scope.

(** *** Dicts *)

Lemma dict_set_keys {V : Type} (d : list (string * V)) (k : string) (v : V) (x : string) :
  In x (dict_keys (dict_set d k v)) -> x = k \/ In x (dict_keys d).
Proof.
  induction d as [|[k' v'] d IH]; simpl.
  - intros [H|[]]; auto.
  - destruct (String.eqb_spec k' k); simpl; intros [H|H]; auto.
    destruct (IH H); auto.
Qed.

(** *** Loops that collect into a list *)

Lemma fold_left_invariant {A B : Type} (P : B -> Prop) (f : B -> A -> B)
  (l : list A) (init : B) :
  P init -> (forall acc x, P acc -> P (f acc x)) -> P (fold_left f l init).
Proof.
  intros Hinit Hstep. revert init Hinit.
  induction l as [|x l IH]; simpl; intros init Hinit; [exact Hinit|].
  apply IH, Hstep, Hinit.
Qed.

Lemma fold_left_collect {A B : Type} (keep : A -> bool) (f : A -> B)
  (l : list A) (init : list B) :
  fold_left (fun acc x => if keep x then acc ++ [f x] else acc) l init =
  init ++ map f (List.filter keep l).
Proof.
  revert init. induction l as [|x l IH]; simpl; intros init.
  - now rewrite app_nil_r.
  - rewrite IH. destruct (keep x); simpl; [|reflexivity].
    now rewrite <- app_assoc.
Qed.

Lemma fold_left_ext {A B : Type} (f g : B -> A -> B) (l : list A) (init : B) :
  (forall acc x, f acc x = g acc x) -> fold_left f l init = fold_left g l init.
Proof.
  intros H. revert init. induction l as [|x l IH]; simpl; intros init; [reflexivity|].
  now rewrite H, IH.
Qed.

Lemma tools_list_filter (agent_name : string) (cls : class) :
  tools_list agent_name cls =
  map (make_tool_entry agent_name) (List.filter listed (getmembers_isfunction cls)).
Proof.
  unfold tools_list.
  rewrite <- (app_nil_l (map _ _)), <- fold_left_collect.
  apply fold_left_ext. intros acc m. unfold listed.
  destruct (startswith (name m) "_" || String.eqb (name m) "generate_tools_json_doc");
    simpl; [reflexivity|].
  destruct (hasattr_kernel_function m); reflexivity.
Qed.

(** *** Sorting by name *)

Lemma leb_trans (s1 s2 s3 : string) :
  String.leb s1 s2 = true -> String.leb s2 s3 = true -> String.leb s1 s3 = true.
Proof.
  revert s2 s3. induction s1 as [|c1 s1 IH]; intros [|c2 s2] [|c3 s3];
    unfold String.leb; simpl; try congruence.
  unfold Ascii.compare.
  destruct (N.compare_spec (N_of_ascii c1) (N_of_ascii c2)) as [E12|L12|G12];
    destruct (N.compare_spec (N_of_ascii c2) (N_of_ascii c3)) as [E23|L23|G23];
    destruct (N.compare_spec (N_of_ascii c1) (N_of_ascii c3)) as [E13|L13|G13];
    try congruence; try lia.
  apply IH.
Qed.

Lemma insert_by_name_sorted (m : method) (l : list method) :
  StronglySorted (fun a b => name_le (name a) (name b)) l ->
  StronglySorted (fun a b => name_le (name a) (name b)) (insert_by_name m l).
Proof.
  induction 1 as [|x l Hl IH Hx]; simpl.
  - repeat constructor.
  - destruct (String.leb (name m) (name x)) eqn:E.
    + constructor; [now constructor|].
      constructor; [exact E|].
      eapply Forall_impl; [|exact Hx].
      intros y Hy. unfold name_le in *. eapply leb_trans; eauto.
    + constructor; [exact IH|].
      assert (Hxm : name_le (name x) (name m)).
      { unfold name_le. destruct (String.leb_total (name x) (name m)); congruence. }
      clear IH Hl. induction l as [|y l IHl]; simpl.
      * repeat constructor. exact Hxm.
      * inversion Hx; subst.
        destruct (String.leb (name m) (name y)); repeat constructor; auto.
Qed.

Lemma sort_by_name_sorted (l : list method) :
  StronglySorted (fun a b => name_le (name a) (name b)) (sort_by_name l).
Proof.
  induction l as [|m l IH]; simpl; [constructor | now apply insert_by_name_sorted].
Qed.

Lemma insert_by_name_perm (m : method) (l : list method) :
  Permutation (m :: l) (insert_by_name m l).
Proof.
  induction l as [|x l IH]; simpl; [reflexivity|].
  destruct (String.leb (name m) (name x)); [reflexivity|].
  rewrite perm_swap. now constructor.
Qed.

Lemma sort_by_name_perm (l : list method) : Permutation l (sort_by_name l).
Proof.
  induction l as [|m l IH]; simpl; [constructor|].
  rewrite <- insert_by_name_perm. now constructor.
Qed.

Lemma filter_sorted {A : Type} (R : A -> A -> Prop) (keep : A -> bool) (l : list A) :
  StronglySorted R l -> StronglySorted R (List.filter keep l).
Proof.
  induction 1 as [|x l Hl IH Hx]; simpl; [constructor|].
  destruct (keep x); [|exact IH].
  constructor; [exact IH|].
  rewrite Forall_forall in *. intros y Hy. apply filter_In in Hy. now apply Hx.
Qed.

Lemma map_sorted {A B : Type} (R : B -> B -> Prop) (f : A -> B) (l : list A) :
  StronglySorted (fun a b => R (f a) (f b)) l -> StronglySorted R (map f l).
Proof.
  induction 1 as [|x l Hl IH Hx]; simpl; constructor; [exact IH|].
  rewrite Forall_forall in *. intros y Hy.
  apply in_map_iff in Hy as [z [<- Hz]]. now apply Hx.
Qed.

(** *** The claims *)

(** C8: whatever the class, [get_all_kernel_functions] is never a key of
    the dictionary it returns, and [generate_tools_json_doc] is never the
    [function] of an entry of the document it generates. *)
Theorem reflection_helpers_exclude_themselves (agent_name : string) (cls : class) :
  ~ In "get_all_kernel_functions" (dict_keys (get_all_kernel_functions cls)) /\
  ~ In "generate_tools_json_doc" (map function (tools_list agent_name cls)).
Proof.
  split.
  - unfold get_all_kernel_functions.
    apply fold_left_invariant; [intros [] |].
    intros acc m Hacc.
    destruct (String.eqb_spec (name m) "get_all_kernel_functions") as [E|NE].
    + now rewrite orb_true_r.
    + destruct (startswith (name m) "_" || false); [exact Hacc|].
      destruct (hasattr_kernel_function m || contains "kernel_function" (str_annotations m));
        [|exact Hacc].
      intros Hin. apply dict_set_keys in Hin as [Hin|Hin]; [congruence | auto].
  - rewrite tools_list_filter, map_map. simpl.
    intros Hin. apply in_map_iff in Hin as [m [Hname Hm]].
    apply filter_In in Hm as [_ Hm]. unfold listed in Hm.
    rewrite Hname, String.eqb_refl, orb_true_r in Hm. discriminate Hm.
Qed.

(** C10: the entries are ordered by function name, whatever the class;
    for [ContentTools] the functions are declared in one order and
    listed in another, the alphabetical one. *)
Theorem tool_entries_sorted_by_name (agent_name : string) (decorator : string -> marker) :
  (forall cls : class,
     StronglySorted name_le (map function (tools_list agent_name cls))) /\
  map name (List.filter isfunction (ContentTools decorator)) =
    ["extract_text_from_pdf"; "parse_sections"; "summarize_text";
     "get_documents_from_sharepoint"; "extract_tables_from_pdf"] /\
  map function (ContentTools_tools_list agent_name decorator) =
    ["extract_tables_from_pdf"; "extract_text_from_pdf";
     "get_documents_from_sharepoint"; "parse_sections"; "summarize_text"].
Proof.
  split; [|split; reflexivity].
  intros cls. rewrite tools_list_filter, map_map. simpl.
  apply map_sorted, filter_sorted, sort_by_name_sorted.
Qed.

(** C7, as the code has it: the entry of [parse_sections], whose
    parameters are [text: str] and [min_section_length: int], describes
    [min_section_length] with type "int" and title "Min Section Length"
    and [text] with type "str" and title "Text"; [file_path: str] is the
    parameter of [extract_text_from_pdf], described there with type "str"
    (the lower-cased class name) and title "File Path". *)
Theorem parse_sections_entry_arguments (agent_name : string) (decorator : string -> marker) :
  map arguments
    (List.filter (fun t => String.eqb (function t) "parse_sections")
       (ContentTools_tools_list agent_name decorator)) =
    ["{'text': {'description': 'text', 'title': 'Text', 'type': 'str'}, 'min_section_length': {'description': 'min_section_length', 'title': 'Min Section Length', 'type': 'int'}}"] /\
  map arguments
    (List.filter (fun t => String.eqb (function t) "extract_text_from_pdf")
       (ContentTools_tools_list agent_name decorator)) =
    ["{'file_path': {'description': 'file_path', 'title': 'File Path', 'type': 'str'}}"].
Proof. split; reflexivity. Qed.

(** C7 as stated fails: the entry of [parse_sections] describes no
    [file_path] argument. *)
Lemma parse_sections_entry_lacks_file_path :
  existsb
    (fun t => String.eqb (function t) "parse_sections" &&
              contains "file_path" (arguments t))
    (ContentTools_tools_list test_agent_name flag_decorator) = false.
Proof. reflexivity. Qed.

(** The name tests are what keeps the helpers out when they are plain
    decorated functions: each one then lists the other. *)
Example self_describing_listing :
  dict_keys (get_all_kernel_functions self_describing) = ["generate_tools_json_doc"; "ping"] /\
  map function (tools_list test_agent_name self_describing) = ["get_all_kernel_functions"; "ping"].
Proof. split; reflexivity. Qed.

End ReflectFacts.

(** ** [parse_sections] *)

Module SectionFacts.

Local Open Scope Z_scope.

(** *** Stripping and splitting *)

Lemma lstrip_length (s : string) : (String.length (lstrip s) <= String.length s)%nat.
Proof.
  induction s as [|c s IH]; simpl; [lia|].
  destruct (isspace_char c); simpl; lia.
Qed.

Lemma rstrip_length (s : string) : (String.length (rstrip s) <= String.length s)%nat.
Proof.
  induction s as [|c s IH]; simpl; [lia|].
  destruct (rstrip s); [destruct (isspace_char c)|]; simpl in *; lia.
Qed.

Lemma strip_len (s : string) : len (strip s) <= len s.
Proof.
  unfold len, strip.
  pose proof (rstrip_length (lstrip s)). pose proof (lstrip_length s). lia.
Qed.

Lemma split_weight (text : string) :
  lines_weight (split "010"%char text) = len text + 1.
Proof.
  induction text as [|c text IH]; [reflexivity|].
  cbn [split]. rewrite len_String. pose proof (len_nonneg text).
  destruct (Ascii.eqb c "010").
  - cbn [lines_weight]. rewrite IH. change (len "") with 0. lia.
  - destruct (split "010"%char text) as [|h t]; cbn [lines_weight] in *;
      rewrite ?len_String; [change (len "") with 0|]; lia.
Qed.

(** *** The loop invariant *)

Lemma within_weaken (m b b' : Z) (st : loop_state) :
  b <= b' -> within m b st -> within m b' st.
Proof.
  intros Hb [Hs Hc]. split; [|lia].
  eapply Forall_impl; [|exact Hs]. simpl. intros s Hsec. lia.
Qed.

Lemma save_section_within (m b : Z) (st : loop_state) :
  within m b st -> Forall (fun s => m <= len (content s) <= b) (save_section m st).
Proof.
  destruct st as [sections current_section]. intros [Hs Hc]. simpl in *.
  destruct (Z.leb_spec m (len (content current_section))); [|exact Hs].
  apply Forall_app. split; [exact Hs|]. constructor; [lia | constructor].
Qed.

Lemma parse_line_within (m b : Z) (st : loop_state) (line : string) :
  0 <= b -> within m b st -> within m (b + (len line + 1)) (parse_line m st line).
Proof.
  intros Hb Hst. pose proof (len_nonneg line) as Hline.
  pose proof (strip_len line) as Hstrip.
  unfold parse_line.
  destruct (String.eqb (strip line) ""); [apply (within_weaken m b); [lia | exact Hst]|].
  destruct (is_heading (strip line)).
  - split; cbn [fst snd content]; [|change (len "") with 0; lia].
    eapply Forall_impl; [|exact (save_section_within m b st Hst)].
    simpl. intros s Hsec. lia.
  - destruct st as [sections current_section]. destruct Hst as [Hs Hc]. simpl in *.
    split; simpl.
    + eapply Forall_impl; [|exact Hs]. simpl. intros s Hsec. lia.
    + rewrite !len_append. change (len nl) with 1. lia.
Qed.

Lemma loop_within (m : Z) (ls : list string) (b : Z) (st : loop_state) :
  0 <= b -> within m b st ->
  within m (b + lines_weight ls) (fold_left (parse_line m) ls st).
Proof.
  revert b st. induction ls as [|l ls IH]; simpl; intros b st Hb Hst.
  - now rewrite Z.add_0_r.
  - pose proof (len_nonneg l).
    replace (b + (len l + 1 + lines_weight ls)) with ((b + (len l + 1)) + lines_weight ls) by lia.
    apply IH; [lia|]. now apply parse_line_within.
Qed.

(** Every saved section reaches the minimum, and its content is at most
    one character longer than the text. *)
Lemma sections_within (text : string) (m : Z) :
  Forall (fun s => m <= len (content s) <= len text + 1) (parse_sections_list text m).
Proof.
  unfold parse_sections_list.
  apply save_section_within.
  rewrite <- split_weight, <- (Z.add_0_l (lines_weight _)).
  apply loop_within; [lia|].
  split; cbn [fst snd content initial_state]; [constructor | change (len "") with 0; lia].
Qed.

(** *** The threshold only drops sections *)

Lemma save_section_all (st : loop_state) :
  save_section 0 st = (fst st ++ [snd st])%list.
Proof.
  destruct st as [sections current_section]. simpl.
  pose proof (len_nonneg (content current_section)).
  destruct (Z.leb_spec 0 (len (content current_section))); [reflexivity | lia].
Qed.

Lemma save_section_threshold (m : Z) (st st0 : loop_state) :
  fst st = List.filter (long_enough m) (fst st0) -> snd st = snd st0 ->
  save_section m st = List.filter (long_enough m) (save_section 0 st0).
Proof.
  rewrite save_section_all.
  destruct st as [sections current_section], st0 as [sections0 current0].
  simpl. intros -> ->. rewrite filter_app. simpl.
  change (long_enough m current0) with (m <=? len (content current0)).
  destruct (m <=? len (content current0)); [reflexivity | now rewrite app_nil_r].
Qed.

Lemma parse_line_threshold (m : Z) (st st0 : loop_state) (line : string) :
  fst st = List.filter (long_enough m) (fst st0) -> snd st = snd st0 ->
  fst (parse_line m st line) = List.filter (long_enough m) (fst (parse_line 0 st0 line)) /\
  snd (parse_line m st line) = snd (parse_line 0 st0 line).
Proof.
  intros Hf Hs. unfold parse_line.
  destruct (String.eqb (strip line) ""); [now split|].
  destruct (is_heading (strip line)).
  - split; [|reflexivity]. now apply save_section_threshold.
  - destruct st as [sections current_section], st0 as [sections0 current0].
    simpl in *. subst. now split.
Qed.

Lemma loop_threshold (m : Z) (ls : list string) (st st0 : loop_state) :
  fst st = List.filter (long_enough m) (fst st0) -> snd st = snd st0 ->
  fst (fold_left (parse_line m) ls st) =
    List.filter (long_enough m) (fst (fold_left (parse_line 0) ls st0)) /\
  snd (fold_left (parse_line m) ls st) = snd (fold_left (parse_line 0) ls st0).
Proof.
  revert st st0. induction ls as [|l ls IH]; simpl; intros st st0 Hf Hs; [now split|].
  destruct (parse_line_threshold m st st0 l Hf Hs) as [Hf' Hs'].
  now apply IH.
Qed.

Lemma sections_threshold (text : string) (m : Z) :
  parse_sections_list text m =
  List.filter (long_enough m) (parse_sections_list text 0).
Proof.
  unfold parse_sections_list.
  destruct (loop_threshold m (split "010"%char text) initial_state initial_state
              eq_refl eq_refl) as [Hf Hs].
  now apply save_section_threshold.
Qed.

(** *** Without a threshold every heading opens a section *)

Lemma parse_line_titles (st : loop_state) (line : string) :
  titles (parse_line 0 st line) =
  (titles st ++
   List.filter is_heading
     (List.filter (fun l => negb (String.eqb l "")) [strip line]))%list.
Proof.
  unfold parse_line. simpl.
  destruct (String.eqb (strip line) ""); simpl; [now rewrite app_nil_r|].
  destruct (is_heading (strip line)).
  - unfold titles at 1. simpl. rewrite save_section_all, map_app. reflexivity.
  - destruct st as [sections current_section]. unfold titles. simpl.
    now rewrite app_nil_r.
Qed.

Lemma loop_titles (ls : list string) (st : loop_state) :
  titles (fold_left (parse_line 0) ls st) =
  (titles st ++
   List.filter is_heading
     (List.filter (fun l => negb (String.eqb l "")) (map strip ls)))%list.
Proof.
  revert st. induction ls as [|l ls IH]; intros st; simpl fold_left.
  - simpl. now rewrite app_nil_r.
  - rewrite IH, parse_line_titles, <- app_assoc. f_equal.
    change (map strip (l :: ls)) with ([strip l] ++ map strip ls)%list.
    now rewrite !filter_app.
Qed.

Lemma sections_titles (text : string) :
  map title (parse_sections_list text 0) = "Introduction" :: heading_lines text.
Proof.
  unfold parse_sections_list. rewrite save_section_all, map_app.
  change (map title (fst ?st) ++ map title [snd ?st])%list with (titles st).
  rewrite loop_titles. reflexivity.
Qed.

(** *** Lines without letters *)

Lemma isupper_no_letter (line : string) :
  has_no_letter line = true -> isupper line = false.
Proof.
  unfold isupper. induction line as [|c line IH]; [reflexivity|].
  cbn [has_no_letter isupper_from]. unfold isalpha_char, iscased_char.
  intros H. apply andb_true_iff in H as [Hc Hrest].
  apply negb_true_iff, orb_false_iff in Hc as [Hc Htitle].
  apply orb_false_iff in Hc as [Hupper Hlower].
  rewrite Hlower, Htitle, Hupper. simpl. now apply IH.
Qed.

(** *** The claims *)

(** C2, as the code has it: a body line enters the content with a line
    terminator, so the content of a section can be one character longer
    than the text; a text with [len(text) + 1] below [min_section_length]
    yields the JSON encoding of the empty list. *)
Theorem short_text_has_no_section (text : string) (min_section_length : Z) :
  len text + 1 < min_section_length ->
  parse_sections text min_section_length = "[]".
Proof.
  intros H. unfold parse_sections.
  pose proof (sections_within text min_section_length) as Hw.
  destruct (parse_sections_list text min_section_length) as [|s l]; [reflexivity|].
  inversion Hw; subst. lia.
Qed.

Lemma short_text_has_no_section_witness :
  len "hello." + 1 < 8 /\ parse_sections "hello." 8 = "[]".
Proof.
  split; [reflexivity|].
  apply (short_text_has_no_section "hello." 8). reflexivity.
Defined.

(** C2 as stated fails: a six-character text with minimum 7 keeps its
    one section, whose content is seven characters long. *)
Lemma text_below_minimum_keeps_section :
  len "hello." < 7 /\
  parse_sections_list "hello." 7 =
    [{| title := "Introduction"; content := "hello." ++ nl |}] /\
  parse_sections "hello." 7 <> "[]".
Proof.
  split; [reflexivity|]. split; [reflexivity|]. vm_compute. discriminate.
Qed.

(** C3, as the code has it: [str.isupper] is false on a line without a
    cased character, so the upper-case rule never makes such a line a
    heading; the line is a heading exactly when one of the three other
    rules applies. *)
Theorem letterless_line_heading (line : string) :
  has_no_letter line = true ->
  isupper line = false /\
  is_heading line =
    ((len line <? 80) && endswith line ":") ||
    existsb (fun prefix => startswith line prefix) ["#"; "Chapter"; "Section"] ||
    ((len line <? 60) && negb (endswith line ".") && negb (endswith line ",")).
Proof.
  intros H. pose proof (isupper_no_letter line H) as Hupper.
  split; [exact Hupper|].
  unfold is_heading. rewrite Hupper, andb_false_r. reflexivity.
Qed.

Lemma letterless_line_heading_witness :
  has_no_letter digits_line = true /\
  isupper digits_line = false /\
  is_heading digits_line = false.
Proof.
  split; [reflexivity|].
  destruct (letterless_line_heading digits_line eq_refl) as [Hupper Hheading].
  split; [exact Hupper|]. rewrite Hheading. reflexivity.
Defined.

(** C3 as stated fails: the seventy-character line of digits that ends
    in a full stop is trimmed, non-empty, shorter than 100 and has no
    letter, yet it is a body line of the introduction. *)
Lemma digits_line_is_body :
  strip digits_line = digits_line /\
  len digits_line = 70 /\
  has_no_letter digits_line = true /\
  is_heading digits_line = false /\
  parse_sections_list digits_line 0 =
    [{| title := "Introduction"; content := digits_line ++ nl |}].
Proof. repeat split; reflexivity. Qed.

(** C4: every section that [parse_sections] emits has a content of at
    least [min_section_length] characters; the emitted sections are the
    sections of the run without threshold that pass the length test,
    in the same order; and the titles of that run are "Introduction"
    followed by the heading lines in the order they appear in the text. *)
Theorem sections_long_enough_and_ordered (text : string) (min_section_length : Z) :
  Forall (fun s => min_section_length <= len (content s))
    (parse_sections_list text min_section_length) /\
  parse_sections_list text min_section_length =
    List.filter (long_enough min_section_length) (parse_sections_list text 0) /\
  map title (parse_sections_list text 0) = "Introduction" :: heading_lines text.
Proof.
  split; [|split].
  - eapply Forall_impl; [|exact (sections_within text min_section_length)].
    simpl. intros s Hs. lia.
  - apply sections_threshold.
  - apply sections_titles.
Qed.

(** The scenario of the specification: two headings, two sections. *)
Example two_sections_scenario :
  parse_sections_list
    ("INTRO" ++ nl ++
     "Hello world, this is a body line that is long enough to count towards the minimum length threshold for sure."
     ++ nl ++ "SECTION TWO:" ++ nl ++
     "Another sufficiently long body line to pass the same minimum length threshold check here too.")
    50 =
  [ {| title := "INTRO";
       content := "Hello world, this is a body line that is long enough to count towards the minimum length threshold for sure." ++ nl |};
    {| title := "SECTION TWO:";
       content := "Another sufficiently long body line to pass the same minimum length threshold check here too." ++ nl |} ].
Proof. reflexivity. Qed.

End SectionFacts.

(** ** [parse_sections], line by line *)

Module SegmentFacts.

Import Segment.

Local Open Scope Z_scope.

Lemma parse_line_on_line (m : Z) (st : loop_state) (line : string) :
  parse_line m st line =
  if String.eqb (strip line) "" then st else on_line m st (strip line).
Proof.
  unfold parse_line, on_line. destruct (String.eqb (strip line) ""); reflexivity.
Qed.

Lemma loop_on_visible (m : Z) (ls : list string) (st : loop_state) :
  fold_left (parse_line m) ls st =
  fold_left (on_line m)
    (List.filter (fun line => negb (String.eqb line "")) (map strip ls)) st.
Proof.
  revert st. induction ls as [|l ls IH]; intros st; [reflexivity|].
  cbn [fold_left map List.filter]. rewrite parse_line_on_line.
  destruct (String.eqb (strip l) ""); cbn [negb fold_left]; apply IH.
Qed.

(** The loop with its accumulator computes the sections one heading at a
    time, and keeps the long ones. *)
Lemma loop_groups (m : Z) (ls : list string) (sections : list section)
  (current_section : section) :
  save_section m (fold_left (on_line m) ls (sections, current_section)) =
  (sections ++
   List.filter (long_enough m)
     (group_from (title current_section) (content current_section) ls))%list.
Proof.
  revert sections current_section.
  induction ls as [|l ls IH]; intros sections current_section.
  - cbn [fold_left group_from List.filter save_section].
    destruct current_section as [t c]. cbn [title content]. unfold long_enough.
    cbn [content].
    destruct (m <=? len c); [reflexivity | now rewrite app_nil_r].
  - cbn [fold_left group_from]. unfold on_line at 2.
    destruct (is_heading l).
    + rewrite IH. cbn [title content List.filter save_section].
      destruct current_section as [t c]. cbn [title content]. unfold long_enough at 2.
      cbn [content].
      destruct (m <=? len c); [now rewrite <- app_assoc | reflexivity].
    + rewrite IH. reflexivity.
Qed.

Lemma sections_are_groups (text : string) (m : Z) :
  parse_sections_list text m = List.filter (long_enough m) (all_sections text).
Proof.
  unfold parse_sections_list. rewrite loop_on_visible.
  exact (loop_groups m (visible_lines text) [] _).
Qed.

(** *** Filters *)

Lemma filter_implies {A : Type} (p q : A -> bool) (l : list A) :
  (forall x, q x = true -> p x = true) ->
  List.filter q (List.filter p l) = List.filter q l.
Proof.
  intros H. induction l as [|x l IH]; [reflexivity|]. cbn [List.filter].
  destruct (p x) eqn:Hp; cbn [List.filter].
  - now rewrite IH.
  - destruct (q x) eqn:Hq; [|exact IH]. apply H in Hq. congruence.
Qed.

Lemma filter_all {A : Type} (p : A -> bool) (l : list A) :
  (forall x, p x = true) -> List.filter p l = l.
Proof.
  intros H. induction l as [|x l IH]; [reflexivity|]. cbn [List.filter].
  now rewrite H, IH.
Qed.

Lemma filter_shorter {A : Type} (p : A -> bool) (l : list A) :
  (List.length (List.filter p l) <= List.length l)%nat.
Proof.
  induction l as [|x l IH]; [reflexivity|]. cbn [List.filter].
  destruct (p x); cbn [List.length]; lia.
Qed.

Lemma long_enough_mono (m m' : Z) (s : section) :
  m <= m' -> long_enough m' s = true -> long_enough m s = true.
Proof. unfold long_enough. intros Hm H. apply Z.leb_le in H. apply Z.leb_le. lia. Qed.

Lemma long_enough_nonpositive (m : Z) (s : section) :
  m <= 0 -> long_enough m s = true.
Proof.
  unfold long_enough. intros Hm. pose proof (len_nonneg (content s)).
  apply Z.leb_le. lia.
Qed.

(** *** The shape of the groups *)

Lemma body_block_app (a b : list string) :
  body_block (a ++ b) = body_block a ++ body_block b.
Proof.
  induction a as [|l a IH]; [reflexivity|]. cbn [body_block app].
  now rewrite IH, !append_assoc.
Qed.

Lemma group_from_content (heading body : string) (ls : list string) :
  total_content (group_from heading body ls) =
  body ++ body_block (List.filter (fun l => negb (is_heading l)) ls).
Proof.
  revert heading body. induction ls as [|l ls IH]; intros heading body.
  - cbn. now rewrite !append_nil_r.
  - cbn [group_from List.filter]. destruct (is_heading l); cbn [negb].
    + cbn [total_content content]. now rewrite IH.
    + rewrite IH. cbn [body_block]. now rewrite !append_assoc.
Qed.

Lemma group_from_plain (heading body : string) (ls : list string) :
  List.filter is_heading ls = [] ->
  group_from heading body ls = [{| title := heading; content := body ++ body_block ls |}].
Proof.
  revert body. induction ls as [|l ls IH]; intros body H.
  - cbn. now rewrite append_nil_r.
  - cbn [List.filter] in H. cbn [group_from]. destruct (is_heading l); [discriminate|].
    rewrite (IH _ H). cbn [body_block]. now rewrite !append_assoc.
Qed.

Lemma made_of_incl (a b : list string) (s : section) :
  incl a b -> made_of a s -> made_of b s.
Proof. intros Hab (ls' & Hc & Hi). exists ls'. split; [exact Hc|]. now apply incl_tran with a. Qed.

Lemma group_from_shape (heading body : string) (ls : list string) :
  exists ls0 rest,
    group_from heading body ls =
      {| title := heading; content := body ++ body_block ls0 |} :: rest /\
    incl ls0 (List.filter (fun l => negb (is_heading l)) ls) /\
    Forall (made_of (List.filter (fun l => negb (is_heading l)) ls)) rest.
Proof.
  revert heading body. induction ls as [|l ls IH]; intros heading body.
  - exists [], []. cbn. rewrite append_nil_r. repeat split; [apply incl_refl | constructor].
  - cbn [group_from List.filter]. destruct (is_heading l); cbn [negb].
    + destruct (IH l "") as (ls0 & rest & E & Hi & Hr).
      exists [], (group_from l "" ls). cbn [body_block]. rewrite append_nil_r.
      split; [reflexivity|]. split; [intros x []|].
      rewrite E. constructor; [|exact Hr].
      exists ls0. split; [reflexivity | exact Hi].
    + destruct (IH heading (body ++ l ++ nl)) as (ls0 & rest & E & Hi & Hr).
      exists (l :: ls0), rest. split; [|split].
      * rewrite E. cbn [body_block]. now rewrite !append_assoc.
      * intros x [<-|Hx]; [now left | right; now apply Hi].
      * eapply Forall_impl; [|exact Hr]. intros s. apply made_of_incl.
        intros x Hx. now right.
Qed.

Lemma all_sections_made_of (text : string) :
  Forall (made_of (body_lines text)) (all_sections text).
Proof.
  unfold all_sections, body_lines.
  destruct (group_from_shape "Introduction" "" (visible_lines text))
    as (ls0 & rest & E & Hi & Hr).
  rewrite E. constructor; [|exact Hr]. exists ls0. split; [reflexivity | exact Hi].
Qed.

(** *** Properties of the segmentation *)

(** X1: the loop of [parse_sections] computes the grouping of the visible
    lines under their headings (the leading lines under "Introduction"),
    and returns, in order, the groups whose content reaches
    [min_section_length]. *)
Theorem parse_sections_groups_lines (text : string) (min_section_length : Z) :
  parse_sections_list text min_section_length =
  List.filter (long_enough min_section_length) (all_sections text).
Proof. apply sections_are_groups. Qed.

(** X2: raising the threshold only drops sections: the result for a
    larger minimum is the result for a smaller one, filtered. *)
Theorem raising_threshold_only_drops (text : string) (m m' : Z) :
  m <= m' ->
  parse_sections_list text m' =
  List.filter (long_enough m') (parse_sections_list text m).
Proof.
  intros Hm. rewrite (sections_are_groups text m'), (sections_are_groups text m).
  symmetry. apply filter_implies. intros s. now apply long_enough_mono.
Qed.

Lemma raising_threshold_only_drops_witness :
  (7 <= 8) /\
  parse_sections_list "hello." 8 =
  List.filter (long_enough 8) (parse_sections_list "hello." 7).
Proof.
  split; [lia|]. apply (raising_threshold_only_drops "hello." 7 8). lia.
Defined.

(** X3: with a minimum of zero or less nothing is dropped: the titles
    are "Introduction" followed by every heading line, also those with
    no body under them. *)
Theorem nonpositive_threshold_keeps_every_heading (text : string) (m : Z) :
  m <= 0 ->
  map title (parse_sections_list text m) = "Introduction" :: heading_lines text.
Proof.
  intros Hm. rewrite SectionFacts.sections_threshold.
  rewrite (filter_all (long_enough m)) by (intros s; now apply long_enough_nonpositive).
  apply SectionFacts.sections_titles.
Qed.

Lemma nonpositive_threshold_keeps_every_heading_witness :
  (-1 <= 0) /\
  map title (parse_sections_list ("# A" ++ nl ++ "# B") (-1)) = ["Introduction"; "# A"; "# B"].
Proof.
  split; [lia|].
  apply (nonpositive_threshold_keeps_every_heading ("# A" ++ nl ++ "# B") (-1)). lia.
Defined.

(** X4: there is at most one section per heading line, plus the
    introduction. *)
Theorem section_count_bound (text : string) (min_section_length : Z) :
  (List.length (parse_sections_list text min_section_length) <=
   1 + List.length (heading_lines text))%nat.
Proof.
  rewrite SectionFacts.sections_threshold.
  pose proof (filter_shorter (long_enough min_section_length) (parse_sections_list text 0)) as H.
  pose proof (f_equal (@List.length string) (SectionFacts.sections_titles text)) as Ht.
  rewrite length_map in Ht. cbn [List.length] in Ht. lia.
Qed.

(** X5: only the stripped, non-empty lines matter: two texts with the
    same visible lines (they differ in blank lines, indentation or
    trailing blanks) give the same result. *)
Theorem blank_lines_and_margins_ignored (text text' : string) (min_section_length : Z) :
  visible_lines text = visible_lines text' ->
  parse_sections text min_section_length = parse_sections text' min_section_length.
Proof.
  intros H. unfold parse_sections.
  rewrite !sections_are_groups. unfold all_sections. now rewrite H.
Qed.

Lemma blank_lines_and_margins_ignored_witness :
  visible_lines ("# A" ++ nl ++ "body.") = visible_lines ("  # A " ++ nl ++ nl ++ " body.  " ++ nl) /\
  parse_sections ("# A" ++ nl ++ "body.") 3 =
  parse_sections ("  # A " ++ nl ++ nl ++ " body.  " ++ nl) 3.
Proof.
  split; [reflexivity|].
  apply (blank_lines_and_margins_ignored ("# A" ++ nl ++ "body.")
           ("  # A " ++ nl ++ nl ++ " body.  " ++ nl) 3).
  reflexivity.
Defined.

(** X6: the content of every emitted section is a sequence of body
    lines of the text (visible lines that are not headings), each one
    followed by a line terminator; no heading line enters a content. *)
Theorem contents_made_of_body_lines (text : string) (min_section_length : Z) :
  Forall (made_of (body_lines text)) (parse_sections_list text min_section_length).
Proof.
  rewrite sections_are_groups.
  pose proof (all_sections_made_of text) as H.
  rewrite Forall_forall in *. intros s Hs. apply filter_In in Hs. now apply H.
Qed.

(** X7: with a minimum of zero or less no body text is lost: the
    contents of the sections, one after the other, are the body lines
    of the text in order, each with its line terminator. *)
Theorem no_body_text_lost_without_threshold (text : string) (m : Z) :
  m <= 0 ->
  total_content (parse_sections_list text m) = body_block (body_lines text).
Proof.
  intros Hm. rewrite sections_are_groups.
  rewrite (filter_all (long_enough m)) by (intros s; now apply long_enough_nonpositive).
  unfold all_sections. rewrite group_from_content. reflexivity.
Qed.

Lemma no_body_text_lost_without_threshold_witness :
  (0 <= 0) /\
  total_content (parse_sections_list ("one." ++ nl ++ "# A" ++ nl ++ "two.") 0) =
  "one." ++ nl ++ "two." ++ nl.
Proof.
  split; [lia|].
  apply (no_body_text_lost_without_threshold ("one." ++ nl ++ "# A" ++ nl ++ "two.") 0). lia.
Defined.

(** X8: a text without a heading line gives at most one section, titled
    "Introduction", that holds every visible line; it is emitted when
    that content reaches the minimum. *)
Theorem text_without_heading (text : string) (min_section_length : Z) :
  heading_lines text = [] ->
  parse_sections_list text min_section_length =
  List.filter (long_enough min_section_length)
    [{| title := "Introduction"; content := body_block (visible_lines text) |}].
Proof.
  intros H. rewrite sections_are_groups. unfold all_sections.
  rewrite (group_from_plain "Introduction" "" (visible_lines text) H). reflexivity.
Qed.

Lemma text_without_heading_witness :
  heading_lines ("one." ++ nl ++ "two.") = [] /\
  parse_sections_list ("one." ++ nl ++ "two.") 10 =
    [{| title := "Introduction"; content := "one." ++ nl ++ "two." ++ nl |}].
Proof.
  split; [reflexivity|].
  apply (text_without_heading ("one." ++ nl ++ "two.") 10). reflexivity.
Defined.

(** X9: a text with no visible line (empty, or blank lines only) gives
    the empty list for a positive minimum, and one "Introduction"
    section with empty content for a minimum of zero or less. *)
Theorem blank_text (text : string) (min_section_length : Z) :
  visible_lines text = [] ->
  parse_sections text min_section_length =
  if min_section_length <=? 0
  then json_text "[{'title': 'Introduction', 'content': ''}]"
  else "[]".
Proof.
  intros H. unfold parse_sections. rewrite sections_are_groups.
  unfold all_sections. rewrite H. cbn [group_from List.filter].
  unfold long_enough. cbn [content]. change (len "") with 0.
  destruct (min_section_length <=? 0); reflexivity.
Qed.

Lemma blank_text_witness :
  visible_lines (" " ++ nl ++ nl ++ "  ") = [] /\
  parse_sections (" " ++ nl ++ nl ++ "  ") 100 = "[]" /\
  parse_sections "" 0 = json_text "[{'title': 'Introduction', 'content': ''}]".
Proof.
  split; [reflexivity|]. split.
  - apply (blank_text (" " ++ nl ++ nl ++ "  ") 100). reflexivity.
  - apply (blank_text "" 0). reflexivity.
Defined.

End SegmentFacts.

(** ** [extract_text_from_pdf], outcome by outcome *)

Module PagesFacts.

Import Fitz Pages Scenario.

Lemma extract_pages_texts (ts : list string) (text : string) (st : state) :
  extract_pages (map GetText ts) text st = (Returns (text ++ joined ts), st).
Proof.
  revert text. induction ts as [|t ts IH]; intros text.
  - cbn. now rewrite append_nil_r.
  - cbn [map extract_pages get_text]. unfold bind, ret at 1. rewrite IH.
    cbn [joined]. now rewrite append_assoc.
Qed.

Lemma extract_pages_failure (ts : list string) (e : string) (rest : list page)
  (text : string) (st : state) :
  extract_pages (map GetText ts ++ GetTextRaises e :: rest)%list text st = (Raises e, st).
Proof.
  revert text. induction ts as [|t ts IH]; intros text.
  - reflexivity.
  - cbn [map app extract_pages get_text]. unfold bind, ret at 1. apply IH.
Qed.

(** A list of pages is readable throughout, or has a first page that
    raises. *)
Lemma pages_split (ps : list page) :
  (exists ts, ps = map GetText ts) \/
  (exists ts e rest, ps = (map GetText ts ++ GetTextRaises e :: rest)%list).
Proof.
  induction ps as [|[t|e] ps IH].
  - left. now exists [].
  - destruct IH as [[ts ->]|(ts & e & rest & ->)].
    + left. now exists (t :: ts).
    + right. now exists (t :: ts), e, rest.
  - right. now exists [], e, ps.
Qed.

Lemma readable_texts (ps : list page) :
  all_readable ps <-> exists ts, ps = map GetText ts.
Proof.
  split.
  - induction 1 as [|p ps [t ->] _ [ts ->]]; [now exists [] | now exists (t :: ts)].
  - intros [ts ->]. induction ts as [|t ts IH]; constructor; [now exists t | exact IH].
Qed.

Lemma failure_not_readable (ts : list string) (e : string) (rest : list page) :
  ~ all_readable (map GetText ts ++ GetTextRaises e :: rest)%list.
Proof.
  intros H. unfold all_readable in H. rewrite Forall_forall in H.
  destruct (H (GetTextRaises e)) as [t Ht]; [|discriminate Ht].
  apply in_or_app. right. now left.
Qed.

Lemma run_success (w : world) (file_path : string) (ts : list string) (st : state) :
  path_exists w file_path = true ->
  fitz_open w file_path = Opens (map GetText ts) ->
  handles_fresh st ->
  extract_text_from_pdf w file_path st = (Returns (joined ts), after_success st).
Proof.
  intros Hex Hopen Hfresh.
  unfold extract_text_from_pdf, try_except, extract_text_body.
  rewrite Hex. cbn [negb]. unfold bind at 1, open. rewrite Hopen.
  cbn [pages]. unfold bind at 1. rewrite extract_pages_texts.
  unfold bind, close, ret, after_success. cbn [open_handles next_handle error_log handle List.filter].
  rewrite Nat.eqb_refl. cbn [negb].
  now rewrite (ExtractFacts.filter_fresh _ _ Hfresh).
Qed.

Lemma run_page_failure (w : world) (file_path : string) (ts : list string) (e : string)
  (rest : list page) (st : state) :
  path_exists w file_path = true ->
  fitz_open w file_path = Opens (map GetText ts ++ GetTextRaises e :: rest)%list ->
  extract_text_from_pdf w file_path st =
    (Returns (extraction_error e), after_page_failure e st).
Proof.
  intros Hex Hopen.
  unfold extract_text_from_pdf, try_except, extract_text_body.
  rewrite Hex. cbn [negb]. unfold bind at 1, open. rewrite Hopen.
  cbn [pages]. unfold bind at 1. rewrite extract_pages_failure. reflexivity.
Qed.

Lemma run_open_failure (w : world) (file_path e : string) (st : state) :
  path_exists w file_path = true ->
  fitz_open w file_path = OpenRaises e ->
  extract_text_from_pdf w file_path st =
    (Returns (extraction_error e), after_open_failure e st).
Proof.
  intros Hex Hopen.
  unfold extract_text_from_pdf, try_except, extract_text_body.
  rewrite Hex. cbn [negb]. unfold bind at 1, open. rewrite Hopen. reflexivity.
Qed.

Lemma run_missing (w : world) (file_path : string) (st : state) :
  path_exists w file_path = false ->
  extract_text_from_pdf w file_path st =
    (Returns ("Error: File not found at " ++ file_path), st).
Proof.
  intros Hex. unfold extract_text_from_pdf, try_except, extract_text_body.
  rewrite Hex. reflexivity.
Qed.

(** The four ways a call can go. *)
Lemma run_cases (w : world) (file_path : string) (st : state) :
  handles_fresh st ->
  (path_exists w file_path = false /\
   extract_text_from_pdf w file_path st =
     (Returns ("Error: File not found at " ++ file_path), st)) \/
  (exists e, path_exists w file_path = true /\ fitz_open w file_path = OpenRaises e /\
   extract_text_from_pdf w file_path st =
     (Returns (extraction_error e), after_open_failure e st)) \/
  (exists ts, path_exists w file_path = true /\ fitz_open w file_path = Opens (map GetText ts) /\
   extract_text_from_pdf w file_path st = (Returns (joined ts), after_success st)) \/
  (exists ts e rest, path_exists w file_path = true /\
   fitz_open w file_path = Opens (map GetText ts ++ GetTextRaises e :: rest)%list /\
   extract_text_from_pdf w file_path st =
     (Returns (extraction_error e), after_page_failure e st)).
Proof.
  intros Hfresh.
  destruct (path_exists w file_path) eqn:Hex.
  - right. destruct (fitz_open w file_path) as [ps|e] eqn:Hopen.
    + right. destruct (pages_split ps) as [[ts ->]|(ts & e & rest & ->)].
      * left. exists ts. repeat split. now apply run_success.
      * right. exists ts, e, rest. repeat split. now apply (run_page_failure w file_path ts e rest).
    + left. exists e. repeat split. now apply run_open_failure.
  - left. split; [reflexivity|]. now apply run_missing.
Qed.

Lemma fresh_after_success (st : state) : handles_fresh st -> handles_fresh (after_success st).
Proof.
  unfold handles_fresh, after_success. cbn [open_handles next_handle].
  intros H. eapply Forall_impl; [|exact H]. cbn. lia.
Qed.

Lemma fresh_after_page_failure (e : string) (st : state) :
  handles_fresh st -> handles_fresh (after_page_failure e st).
Proof.
  unfold handles_fresh, after_page_failure. cbn [open_handles next_handle].
  intros H. constructor; [lia|]. eapply Forall_impl; [|exact H]. cbn. lia.
Qed.

Lemma cons_not_self {A : Type} (x : A) (l : list A) : x :: l <> l.
Proof.
  intros H. apply (f_equal (@List.length A)) in H. cbn [List.length] in H. lia.
Qed.

(** *** Properties of the extraction *)

(** X10: when the file exists, opens, and every page yields its text,
    the call returns the page texts in page order with nothing between
    them, closes the handle it opened and logs nothing. *)
Theorem extract_text_returns_pages_in_order (w : world) (file_path : string)
  (ts : list string) (st : state) :
  path_exists w file_path = true ->
  fitz_open w file_path = Opens (map GetText ts) ->
  handles_fresh st ->
  extract_text_from_pdf w file_path st = (Returns (joined ts), after_success st).
Proof. apply run_success. Qed.

Lemma extract_text_returns_pages_in_order_witness :
  extract_text_from_pdf (one_file "a.pdf" (map GetText ["one "; "two "; "three"])) "a.pdf" initial =
    (Returns "one two three", after_success initial).
Proof.
  apply (extract_text_returns_pages_in_order
           (one_file "a.pdf" (map GetText ["one "; "two "; "three"])) "a.pdf"
           ["one "; "two "; "three"] initial).
  - reflexivity.
  - reflexivity.
  - exact ExtractFacts.initial_fresh.
Defined.

(** X11: when a page raises, the call returns "Error extracting text
    from PDF: " followed by the exception text and logs that same line
    once; the text of the pages read before is discarded, and the pages
    after the failing one play no part. *)
Theorem extract_text_page_failure_reported (w : world) (file_path : string)
  (ts : list string) (e : string) (rest : list page) (st : state) :
  path_exists w file_path = true ->
  fitz_open w file_path = Opens (map GetText ts ++ GetTextRaises e :: rest)%list ->
  extract_text_from_pdf w file_path st =
    (Returns ("Error extracting text from PDF: " ++ e),
     {| open_handles := next_handle st :: open_handles st;
        next_handle := S (next_handle st);
        error_log := (error_log st ++ [("Error extracting text from PDF: " ++ e)%string])%list |}).
Proof. apply run_page_failure. Qed.

Lemma extract_text_page_failure_reported_witness :
  extract_text_from_pdf damaged_pdf "report.pdf" initial =
    (Returns "Error extracting text from PDF: cannot read page",
     {| open_handles := [0]; next_handle := 1;
        error_log := ["Error extracting text from PDF: cannot read page"] |}).
Proof.
  apply (extract_text_page_failure_reported damaged_pdf "report.pdf"
           ["page one"] "cannot read page" [] initial); reflexivity.
Defined.

(** X12: when the file exists but [fitz.open] raises, the call returns
    and logs "Error extracting text from PDF: " followed by the
    exception text; no handle is opened. *)
Theorem extract_text_open_failure_reported (w : world) (file_path e : string) (st : state) :
  path_exists w file_path = true ->
  fitz_open w file_path = OpenRaises e ->
  extract_text_from_pdf w file_path st =
    (Returns ("Error extracting text from PDF: " ++ e),
     {| open_handles := open_handles st;
        next_handle := next_handle st;
        error_log := (error_log st ++ [("Error extracting text from PDF: " ++ e)%string])%list |}).
Proof. apply run_open_failure. Qed.

Lemma extract_text_open_failure_reported_witness :
  extract_text_from_pdf not_a_pdf "notes.txt" initial =
    (Returns "Error extracting text from PDF: cannot open broken document",
     {| open_handles := []; next_handle := 0;
        error_log := ["Error extracting text from PDF: cannot open broken document"] |}).
Proof.
  apply (extract_text_open_failure_reported not_a_pdf "notes.txt"
           "cannot open broken document" initial); reflexivity.
Defined.

(** X13: the call keeps the handle table sound: handle numbers stay
    below the next number to hand out, no handle that was open before
    the call is closed by it, and at most one handle is added. *)
Theorem extract_text_keeps_handles_fresh (w : world) (file_path : string) (st : state) :
  handles_fresh st ->
  handles_fresh (snd (extract_text_from_pdf w file_path st)) /\
  incl (open_handles st) (open_handles (snd (extract_text_from_pdf w file_path st))) /\
  (List.length (open_handles (snd (extract_text_from_pdf w file_path st))) <=
   S (List.length (open_handles st)))%nat.
Proof.
  intros Hfresh.
  destruct (run_cases w file_path st Hfresh)
    as [[_ ->]|[(e & _ & _ & ->)|[(ts & _ & _ & ->)|(ts & e & rest & _ & _ & ->)]]];
    cbn [snd after_open_failure after_success after_page_failure open_handles List.length].
  - repeat split; [exact Hfresh | apply incl_refl | lia].
  - repeat split; [exact Hfresh | apply incl_refl | lia].
  - repeat split; [now apply fresh_after_success | apply incl_refl | lia].
  - repeat split; [now apply (fresh_after_page_failure e) | apply incl_tl, incl_refl | lia].
Qed.

Lemma extract_text_keeps_handles_fresh_witness :
  handles_fresh (snd (extract_text_from_pdf damaged_pdf "report.pdf"
                        (snd (extract_text_from_pdf damaged_pdf "report.pdf" initial)))).
Proof.
  apply (extract_text_keeps_handles_fresh damaged_pdf "report.pdf").
  apply (extract_text_keeps_handles_fresh damaged_pdf "report.pdf" initial).
  exact ExtractFacts.initial_fresh.
Defined.

(** X14: a handle is left open by the call exactly when the file exists,
    [fitz.open] succeeds and some page raises; on every other path the
    open handles are the same before and after. *)
Theorem extract_text_leaks_exactly_on_page_failure (w : world) (file_path : string)
  (st : state) :
  handles_fresh st ->
  (open_handles (snd (extract_text_from_pdf w file_path st)) <> open_handles st <->
   path_exists w file_path = true /\
   exists ps, fitz_open w file_path = Opens ps /\ ~ all_readable ps).
Proof.
  intros Hfresh.
  destruct (run_cases w file_path st Hfresh)
    as [[Hex ->]|[(e & Hex & Hopen & ->)|[(ts & Hex & Hopen & ->)|(ts & e & rest & Hex & Hopen & ->)]]];
    cbn [snd after_open_failure after_success after_page_failure open_handles].
  - split; [congruence|]. intros [H _]. congruence.
  - split; [congruence|]. intros [_ (ps & Hps & _)]. congruence.
  - split; [congruence|]. intros [_ (ps & Hps & Hbad)].
    elim Hbad. rewrite Hopen in Hps. injection Hps as <-.
    apply readable_texts. now exists ts.
  - split; [|intros _; apply cons_not_self].
    intros _. split; [exact Hex|].
    eexists. split; [exact Hopen | apply failure_not_readable].
Qed.

Lemma extract_text_leaks_exactly_on_page_failure_witness :
  open_handles (snd (extract_text_from_pdf damaged_pdf "report.pdf" initial)) <>
  open_handles initial.
Proof.
  apply (extract_text_leaks_exactly_on_page_failure damaged_pdf "report.pdf" initial
           ExtractFacts.initial_fresh).
  split; [reflexivity|].
  exists [GetText "page one"; GetTextRaises "cannot read page"].
  split; [reflexivity|]. apply (failure_not_readable ["page one"] "cannot read page" []).
Defined.

(** X15: the call never raises: whatever the file system and the
    document do, it returns a string, and a line is written to the
    error log only when it is that very string. *)
Theorem extract_text_always_returns (w : world) (file_path : string) (st : state) :
  exists text st',
    extract_text_from_pdf w file_path st = (Returns text, st') /\
    (error_log st' = error_log st \/ error_log st' = (error_log st ++ [text])%list).
Proof.
  destruct (path_exists w file_path) eqn:Hex.
  - destruct (fitz_open w file_path) as [ps|e] eqn:Hopen.
    + destruct (pages_split ps) as [[ts ->]|(ts & e & rest & ->)].
      * unfold extract_text_from_pdf, try_except, extract_text_body.
        rewrite Hex. cbn [negb]. unfold bind at 1, open. rewrite Hopen.
        cbn [pages]. unfold bind at 1. rewrite extract_pages_texts.
        unfold bind, close, ret. eexists _, _. split; [reflexivity|]. now left.
      * rewrite (run_page_failure w file_path ts e rest st Hex Hopen).
        eexists _, _. split; [reflexivity|]. now right.
    + rewrite (run_open_failure w file_path e st Hex Hopen).
      eexists _, _. split; [reflexivity|]. now right.
  - rewrite (run_missing w file_path st Hex).
    eexists _, _. split; [reflexivity|]. now left.
Qed.

End PagesFacts.

(** ** [summarize_text], past the limit *)

Module SummaryFacts.

Local Open Scope Z_scope.

Lemma str_int_nonempty (n : Z) : 1 <= len (str_int n).
Proof.
  unfold str_int, NilZero.string_of_int, NilZero.string_of_uint.
  destruct (Z.to_int n) as [[| | | | | | | | | | ]|[| | | | | | | | | | ]];
    cbn [NilEmpty.string_of_uint]; rewrite ?len_String;
    repeat match goal with |- context [len ?s] => pose proof (len_nonneg s); generalize dependent (len s); intros end;
    change (len "0") with 1; lia.
Qed.

Lemma placeholder_length (n max_length : Z) :
  len (placeholder n max_length) = 195 + len (str_int n) + len (str_int max_length).
Proof.
  unfold placeholder. rewrite !len_append.
  match goal with
  | |- len ?a + (_ + (len ?b + (_ + len ?c))) = _ =>
      change (len a) with 150; change (len b) with 33; change (len c) with 12
  end.
  lia.
Qed.

(** X16: past the limit the result is no summary: it is the placeholder,
    at least 197 characters long whatever [max_length] is (so longer
    than any limit below 197), and it is the same for all texts of the
    same length. *)
Theorem summarize_text_placeholder_ignores_limit (text : string) (max_length : Z) :
  max_length < len text ->
  197 <= len (summarize_text text max_length) /\
  (forall text', len text' = len text ->
     summarize_text text' max_length = summarize_text text max_length).
Proof.
  intros H. split.
  - rewrite (summarize_text_long _ _ H), placeholder_length.
    pose proof (str_int_nonempty (len text)). pose proof (str_int_nonempty max_length). lia.
  - intros text' E. rewrite (summarize_text_long _ _ H).
    rewrite summarize_text_long by lia. now rewrite E.
Qed.

Lemma summarize_text_placeholder_ignores_limit_witness :
  197 <= len (summarize_text "hello world" 10) /\
  summarize_text "HELLO WORLD" 10 = summarize_text "hello world" 10.
Proof.
  destruct (summarize_text_placeholder_ignores_limit "hello world" 10 eq_refl) as [Hlen Hsame].
  split; [exact Hlen|]. apply Hsame. reflexivity.
Defined.

End SummaryFacts.

(** ** The JSON results can be read back *)

Module JsonFacts.

Import Reader.

Lemma read_escape_char (c : ascii) (t : string) :
  read_string (escape_char false c ++ t) = push c (read_string t).
Proof.
  destruct c as [b0 b1 b2 b3 b4 b5 b6 b7].
  destruct b0, b1, b2, b3, b4, b5, b6, b7; reflexivity.
Qed.

Lemma read_escaped (s rest : string) :
  read_string (escape false s ++ dq ++ rest) = Some (s, rest).
Proof.
  induction s as [|c s IH]; [reflexivity|].
  cbn [escape]. rewrite append_assoc, read_escape_char, IH. reflexivity.
Qed.

Lemma append_cancel (a b c : string) : a ++ b = a ++ c -> b = c.
Proof.
  induction a as [|x a IH]; cbn [append]; intros H; [exact H|].
  injection H as H. now apply IH.
Qed.

(** An encoded string followed by anything is read in one way only. *)
Lemma encode_str_inj (s s' r r' : string) :
  encode_str false s ++ r = encode_str false s' ++ r' -> s = s' /\ r = r'.
Proof.
  unfold encode_str. rewrite !append_assoc. intros H.
  apply append_cancel in H.
  apply (f_equal read_string) in H. rewrite !read_escaped in H.
  injection H as -> ->. now split.
Qed.

(** *** The stand-ins echo their arguments *)

Lemma sharepoint_shape (site_url library_name : string) (username password : option string) :
  get_documents_from_sharepoint site_url library_name username password =
  json_text "{'site': " ++ encode_str false site_url ++
  json_text ", 'library': " ++ encode_str false library_name ++
  json_text ", 'documents': [{'name': 'Product_Specifications.pdf', 'size': '1.2 MB', 'modified': '2025-07-30'}, {'name': 'Technical_Manual.docx', 'size': '3.5 MB', 'modified': '2025-08-01'}, {'name': 'Project_Plan.xlsx', 'size': '0.8 MB', 'modified': '2025-08-02'}]}".
Proof.
  unfold get_documents_from_sharepoint, dumps, example_docs.
  cbn. unfold encode_str. cbn. rewrite !append_assoc. reflexivity.
Qed.

Lemma tables_shape (file_path : string) :
  extract_tables_from_pdf file_path =
  json_text "{'file': " ++ encode_str false file_path ++
  json_text ", 'tables': [{'page': 1, 'data': [['ID', 'Name', 'Department', 'Role'], ['1', 'John Smith', 'Engineering', 'Senior Developer'], ['2', 'Jane Doe', 'Marketing', 'Director'], ['3', 'Robert Johnson', 'Finance', 'Analyst']]}]}".
Proof.
  unfold extract_tables_from_pdf, dumps, example_table.
  cbn. unfold encode_str. cbn. rewrite !append_assoc. reflexivity.
Qed.

(** X17: [extract_tables_from_pdf] reads no file: for every path, also
    one that does not exist, it returns the same one-table listing for
    page 1, with the path echoed as a JSON string. *)
Theorem extract_tables_fixed_listing (file_path : string) :
  extract_tables_from_pdf file_path =
  json_text "{'file': " ++ encode_str false file_path ++
  json_text ", 'tables': [{'page': 1, 'data': [['ID', 'Name', 'Department', 'Role'], ['1', 'John Smith', 'Engineering', 'Senior Developer'], ['2', 'Jane Doe', 'Marketing', 'Director'], ['3', 'Robert Johnson', 'Finance', 'Analyst']]}]}".
Proof. apply tables_shape. Qed.

(** X18: the echo loses nothing: two results of [extract_tables_from_pdf]
    are equal only for equal paths, whatever characters (quotes,
    backslashes, control characters) the paths hold. *)
Theorem extract_tables_echo_injective (file_path file_path' : string) :
  extract_tables_from_pdf file_path = extract_tables_from_pdf file_path' ->
  file_path = file_path'.
Proof.
  rewrite !tables_shape. intros H.
  apply append_cancel in H. now apply encode_str_inj in H.
Qed.

Lemma extract_tables_echo_injective_witness :
  extract_tables_from_pdf ("a" ++ dq ++ ".pdf") = extract_tables_from_pdf ("a" ++ dq ++ ".pdf") /\
  "a" ++ dq ++ ".pdf" = "a" ++ dq ++ ".pdf".
Proof.
  split; [reflexivity|].
  apply (extract_tables_echo_injective ("a" ++ dq ++ ".pdf") ("a" ++ dq ++ ".pdf")).
  reflexivity.
Defined.

(** X19: the listing of [get_documents_from_sharepoint] determines the
    site and the library it was asked for: equal results come from equal
    [site_url] and equal [library_name] (the credentials play no part). *)
Theorem sharepoint_echo_injective
  (site_url library_name site_url' library_name' : string)
  (username password username' password' : option string) :
  get_documents_from_sharepoint site_url library_name username password =
  get_documents_from_sharepoint site_url' library_name' username' password' ->
  site_url = site_url' /\ library_name = library_name'.
Proof.
  rewrite !sharepoint_shape. intros H.
  apply append_cancel in H. apply encode_str_inj in H as [-> H].
  apply append_cancel in H. apply encode_str_inj in H as [-> _]. now split.
Qed.

Lemma sharepoint_echo_injective_witness :
  "https://contoso.sharepoint.com" = "https://contoso.sharepoint.com" /\ "Docs" = "Docs".
Proof.
  apply (sharepoint_echo_injective "https://contoso.sharepoint.com" "Docs"
           "https://contoso.sharepoint.com" "Docs" None None (Some "user") (Some "secret")).
  reflexivity.
Defined.

(** *** The text of the sections *)

Import SectionsText.

Lemma encode_section (level : nat) (s : section) :
  encode false None level (section_json s) = section_text s.
Proof.
  unfold section_json, section_text. cbn. unfold encode_str. cbn.
  rewrite !append_assoc. reflexivity.
Qed.

Lemma encode_more_sections (r : list section) :
  (fix rest (l : list json) : string :=
     match l with
     | [] => ""
     | y :: ys => item_separator None 1 ++ encode false None 1 y ++ rest ys
     end) (map section_json r) = more_sections r.
Proof.
  induction r as [|s r IH]; [reflexivity|].
  cbn [map more_sections]. rewrite encode_section, IH. reflexivity.
Qed.

Lemma dumps_sections (l : list section) :
  dumps false None (JList (map section_json l)) = sections_text l.
Proof.
  destruct l as [|s r]; [reflexivity|].
  unfold dumps, sections_text. cbn [map encode].
  rewrite encode_section.
  change (newline_indent None 1) with "". change (newline_indent None 0) with "".
  cbn [append]. now rewrite encode_more_sections.
Qed.

Lemma section_text_inj (s s' : section) (r r' : string) :
  section_text s ++ r = section_text s' ++ r' -> s = s' /\ r = r'.
Proof.
  unfold section_text. rewrite !append_assoc. intros H.
  apply append_cancel in H. apply encode_str_inj in H as [Ht H].
  apply append_cancel in H. apply encode_str_inj in H as [Hc H].
  injection H as H. split; [|exact H].
  destruct s, s'. cbn in *. congruence.
Qed.

Lemma more_sections_inj (l l' : list section) :
  more_sections l ++ "]" = more_sections l' ++ "]" -> l = l'.
Proof.
  revert l'. induction l as [|s l IH]; intros [|s' l']; cbn [more_sections];
    intros H; try reflexivity; try discriminate H.
  rewrite !append_assoc in H. apply append_cancel in H.
  apply section_text_inj in H as [-> H]. f_equal. now apply IH.
Qed.

Lemma sections_text_inj (l l' : list section) :
  sections_text l = sections_text l' -> l = l'.
Proof.
  destruct l as [|s l], l' as [|s' l']; cbn [sections_text]; intros H;
    try reflexivity.
  - exfalso. unfold section_text in H. cbn in H. discriminate H.
  - exfalso. unfold section_text in H. cbn in H. discriminate H.
  - apply append_cancel in H. apply section_text_inj in H as [-> H].
    f_equal. now apply more_sections_inj.
Qed.

(** X20: the JSON text that [parse_sections] returns determines the
    sections: two calls that return the same string found the same
    titles and contents in the same order, whatever characters these
    hold. *)
Theorem parse_sections_text_determines_sections
  (text text' : string) (m m' : Z) :
  parse_sections text m = parse_sections text' m' ->
  parse_sections_list text m = parse_sections_list text' m'.
Proof.
  unfold parse_sections. rewrite !dumps_sections. apply sections_text_inj.
Qed.

Lemma parse_sections_text_determines_sections_witness :
  parse_sections_list ("# A" ++ nl ++ "body.") 3 =
  parse_sections_list ("  # A " ++ nl ++ nl ++ " body.  " ++ nl) 3.
Proof.
  apply (parse_sections_text_determines_sections ("# A" ++ nl ++ "body.")
           ("  # A " ++ nl ++ nl ++ " body.  " ++ nl) 3 3).
  reflexivity.
Defined.

End JsonFacts.

(** ** The two reflection loops, member by member *)

Module ReflectMore.

Import Reflect ReflectAux ReflectScenario.

Local Open Scope list_scope.

(** *** Dicts *)

Lemma dict_set_keys_present {V : Type} (d : list (string * V)) (k : string) (v : V) :
  In k (dict_keys d) -> dict_keys (dict_set d k v) = dict_keys d.
Proof.
  induction d as [|[k' v'] d IH]; cbn [dict_keys map fst dict_set In]; [intros []|].
  destruct (String.eqb_spec k' k) as [->|NE]; [reflexivity|].
  intros [H|H]; [congruence|]. cbn [map fst]. f_equal. apply IH, H.
Qed.

Lemma dict_set_keys_absent {V : Type} (d : list (string * V)) (k : string) (v : V) :
  ~ In k (dict_keys d) -> dict_keys (dict_set d k v) = dict_keys d ++ [k].
Proof.
  induction d as [|[k' v'] d IH]; cbn [dict_keys map fst dict_set In app]; [reflexivity|].
  intros H. destruct (String.eqb_spec k' k) as [->|NE]; [elim H; now left|].
  cbn [map fst]. f_equal. apply IH. intros Hin. apply H. now right.
Qed.


Lemma in_dict_keys_dec {V : Type} (d : list (string * V)) (k : string) :
  In k (dict_keys d) \/ ~ In k (dict_keys d).
Proof. destruct (in_dec string_dec k (dict_keys d)); auto. Qed.

Lemma dict_set_keys_iff {V : Type} (d : list (string * V)) (k : string) (v : V) (x : string) :
  In x (dict_keys (dict_set d k v)) <-> x = k \/ In x (dict_keys d).
Proof.
  destruct (in_dict_keys_dec d k) as [H|H].
  - rewrite (dict_set_keys_present d k v H). split; [auto|]. intros [->|Hx]; assumption.
  - rewrite (dict_set_keys_absent d k v H), in_app_iff. cbn [In].
    split; [intros [Hx|[<-|[]]]; auto | intros [->|Hx]; auto].
Qed.

Lemma dict_set_entries {V : Type} (d : list (string * V)) (k : string) (v : V)
  (P : string * V -> Prop) :
  Forall P d -> P (k, v) -> Forall P (dict_set d k v).
Proof.
  intros Hd Hkv. induction Hd as [|[k' v'] d Hh Hd IH]; cbn [dict_set].
  - now constructor.
  - destruct (String.eqb_spec k' k) as [->|NE]; constructor; assumption.
Qed.

(** *** The members that are looked at *)

Lemma getmembers_in (cls : class) (m : method) :
  In m (getmembers_isfunction cls) <-> In m cls /\ isfunction m = true.
Proof.
  unfold getmembers_isfunction. rewrite <- filter_In.
  split; intros H.
  - eapply Permutation_in; [symmetry; apply ReflectFacts.sort_by_name_perm | exact H].
  - eapply Permutation_in; [apply ReflectFacts.sort_by_name_perm | exact H].
Qed.

Lemma get_all_kernel_functions_fold (cls : class) :
  get_all_kernel_functions cls =
  fold_left (fun d m => if selected m then dict_set d (name m) m else d)
    (getmembers_isfunction cls) [].
Proof.
  unfold get_all_kernel_functions. apply ReflectFacts.fold_left_ext.
  intros d m. unfold selected.
  destruct (startswith (name m) "_" || String.eqb (name m) "get_all_kernel_functions");
    reflexivity.
Qed.

Lemma keys_fold (l : list method) (d : list (string * method)) (k : string) :
  In k (dict_keys (fold_left (fun d m => if selected m then dict_set d (name m) m else d) l d)) <->
  In k (dict_keys d) \/ exists m, In m l /\ selected m = true /\ name m = k.
Proof.
  revert d. induction l as [|m l IH]; intros d; cbn [fold_left].
  - split; [auto|]. intros [H|(m & [] & _)]. exact H.
  - rewrite IH. destruct (selected m) eqn:Hsel.
    + rewrite dict_set_keys_iff. split.
      * intros [[->|H]|(m' & Hin & Hs & Hn)]; [right; exists m; cbn; auto | auto |].
        right. exists m'. cbn. auto.
      * intros [H|(m' & [<-|Hin] & Hs & Hn)]; [auto | auto |].
        right. exists m'. auto.
    + split.
      * intros [H|(m' & Hin & Hs & Hn)]; [auto|]. right. exists m'. cbn. auto.
      * intros [H|(m' & [<-|Hin] & Hs & Hn)]; [auto | congruence |].
        right. exists m'. auto.
Qed.

(** *** What [get_all_kernel_functions] returns *)

Lemma kernel_function_keys_aux (cls : class) (k : string) :
  In k (dict_keys (get_all_kernel_functions cls)) <->
  exists m, In m cls /\ isfunction m = true /\ selected m = true /\ name m = k.
Proof.
  rewrite get_all_kernel_functions_fold, keys_fold. cbn [dict_keys map In].
  split.
  - intros [[]|(m & Hin & Hs & Hn)]. apply getmembers_in in Hin as [Hin Hf].
    exists m. auto.
  - intros (m & Hin & Hf & Hs & Hn). right. exists m.
    split; [now apply getmembers_in | auto].
Qed.

(** X21: a name is a key of the dictionary exactly when the class has a
    plain function of that name that does not start with an underscore,
    is not [get_all_kernel_functions], and carries the marker or
    mentions [kernel_function] in its annotations; class methods and
    data attributes are never keys. *)
Theorem kernel_function_keys (cls : class) (k : string) :
  In k (dict_keys (get_all_kernel_functions cls)) <->
  exists m, In m cls /\ isfunction m = true /\ selected m = true /\ name m = k.
Proof. apply kernel_function_keys_aux. Qed.

(** X22: every key is bound to a member of the class that bears that
    very name. *)
Theorem kernel_function_values (cls : class) :
  Forall (fun kv => name (snd kv) = fst kv /\ In (snd kv) cls)
    (get_all_kernel_functions cls).
Proof.
  rewrite get_all_kernel_functions_fold.
  assert (H : forall l d,
             Forall (fun m => In m cls) l ->
             Forall (fun kv => name (snd kv) = fst kv /\ In (snd kv) cls) d ->
             Forall (fun kv => name (snd kv) = fst kv /\ In (snd kv) cls)
               (fold_left (fun d m => if selected m then dict_set d (name m) m else d) l d)).
  { induction l as [|m l IH]; intros d Hl Hd; cbn [fold_left]; [exact Hd|].
    inversion Hl; subst. apply IH; [assumption|].
    destruct (selected m); [|exact Hd].
    apply dict_set_entries; [exact Hd | cbn; auto]. }
  apply H; [|constructor].
  rewrite Forall_forall. intros m Hm. now apply getmembers_in in Hm.
Qed.

Lemma sorted_snoc (l : list string) (y : string) :
  StronglySorted name_le l -> Forall (fun x => name_le x y) l ->
  StronglySorted name_le (l ++ [y]).
Proof.
  induction 1 as [|x l Hl IH Hx]; cbn [app]; intros Hy.
  - repeat constructor.
  - inversion Hy; subst. constructor; [now apply IH|].
    apply Forall_app. split; [exact Hx | now repeat constructor].
Qed.

Lemma keys_sorted_fold (l : list method) (d : list (string * method)) :
  StronglySorted (fun a b => name_le (name a) (name b)) l ->
  StronglySorted name_le (dict_keys d) -> NoDup (dict_keys d) ->
  (forall k m, In k (dict_keys d) -> In m l -> name_le k (name m)) ->
  StronglySorted name_le
    (dict_keys (fold_left (fun d m => if selected m then dict_set d (name m) m else d) l d)) /\
  NoDup (dict_keys (fold_left (fun d m => if selected m then dict_set d (name m) m else d) l d)).
Proof.
  revert d. induction l as [|m l IH]; intros d Hl Hs Hn Hb; cbn [fold_left]; [now split|].
  inversion Hl as [|? ? Hl' Hm]; subst. rewrite Forall_forall in Hm.
  destruct (selected m); [|apply IH; auto; intros k m' Hk Hm'; apply Hb; cbn; auto].
  destruct (in_dict_keys_dec d (name m)) as [Hin|Hout].
  - rewrite <- (dict_set_keys_present d (name m) m Hin) in Hs, Hn, Hb.
    apply IH; auto. intros k m' Hk Hm'. apply Hb; cbn; auto.
  - apply IH; auto; rewrite (dict_set_keys_absent d (name m) m Hout).
    + apply sorted_snoc; [exact Hs|]. rewrite Forall_forall.
      intros k Hk. apply Hb; cbn; auto.
    + apply Permutation_NoDup with (name m :: dict_keys d).
      * apply Permutation_cons_append.
      * now constructor.
    + intros k m' Hk Hm'. apply in_app_iff in Hk as [Hk|[<-|[]]].
      * apply Hb; cbn; auto.
      * now apply Hm.
Qed.

(** X23: the keys come in alphabetical order and without repetition, so
    a caller that walks the dictionary meets the functions sorted by
    name. *)
Theorem kernel_function_keys_sorted (cls : class) :
  StronglySorted name_le (dict_keys (get_all_kernel_functions cls)) /\
  NoDup (dict_keys (get_all_kernel_functions cls)).
Proof.
  rewrite get_all_kernel_functions_fold.
  apply keys_sorted_fold.
  - apply ReflectFacts.sort_by_name_sorted.
  - constructor.
  - constructor.
  - intros k m [].
Qed.

(** *** What [generate_tools_json_doc] lists *)

Lemma tools_list_in (agent_name : string) (cls : class) (t : tool_entry) :
  In t (tools_list agent_name cls) <->
  exists m, In m cls /\ isfunction m = true /\ listed m = true /\
            t = make_tool_entry agent_name m.
Proof.
  rewrite ReflectFacts.tools_list_filter, in_map_iff. split.
  - intros (m & <- & Hm). apply filter_In in Hm as [Hm Hl].
    apply getmembers_in in Hm as [Hm Hf]. exists m. auto.
  - intros (m & Hm & Hf & Hl & ->). exists m. split; [reflexivity|].
    apply filter_In. split; [now apply getmembers_in | exact Hl].
Qed.


(** X25: the two listings agree on the marked functions: every function
    with an entry in the document, unless it is called
    [get_all_kernel_functions], is a key of the dictionary. *)
Theorem documented_functions_are_keys (agent_name : string) (cls : class) (t : tool_entry) :
  In t (tools_list agent_name cls) ->
  function t <> "get_all_kernel_functions" ->
  In (function t) (dict_keys (get_all_kernel_functions cls)).
Proof.
  intros Ht Hn. apply tools_list_in in Ht as (m & Hm & Hf & Hl & ->).
  cbn [function make_tool_entry] in *. apply kernel_function_keys_aux. exists m.
  unfold listed in Hl. apply andb_true_iff in Hl as [Hl Hk].
  apply negb_true_iff, orb_false_iff in Hl as [Hp _].
  apply String.eqb_neq in Hn. unfold selected. rewrite Hp, Hn, Hk. auto.
Qed.

Lemma documented_functions_are_keys_witness :
  In "parse_sections" (dict_keys (get_all_kernel_functions (ContentTools flag_decorator))).
Proof.
  apply (documented_functions_are_keys test_agent_name (ContentTools flag_decorator)
           (make_tool_entry test_agent_name (parse_sections_method flag_decorator))).
  - vm_compute. do 3 right. left. reflexivity.
  - vm_compute. discriminate.
Defined.

(** The converse fails without the marker: a function whose annotations
    merely mention [kernel_function] is a key and has no entry. *)
Example annotated_function_is_key_only :
  dict_keys (get_all_kernel_functions [annotated_only]) = ["helper"] /\
  tools_list test_agent_name [annotated_only] = [].
Proof. split; reflexivity. Qed.

(** *** The argument descriptors *)




Lemma replace_removes (old new : ascii) (s : string) :
  old <> new -> contains (String old "") (replace old new s) = false.
Proof.
  intros H. induction s as [|c s IH]; [reflexivity|].
  cbn [replace]. rewrite contains_unfold, IH, orb_false_r. cbn [String.prefix].
  destruct (Ascii.eqb_spec c old) as [->|NE].
  - destruct (ascii_dec old new); [contradiction | reflexivity].
  - destruct (ascii_dec old c); [congruence | reflexivity].
Qed.

(** X27: the [arguments] text of an entry never holds a double quote:
    every quote of the JSON encoding, delimiter or not, has become an
    apostrophe. *)
Theorem arguments_hold_no_double_quote (agent_name : string) (m : method) :
  contains dq (arguments (make_tool_entry agent_name m)) = false.
Proof.
  cbn [arguments make_tool_entry]. apply replace_removes. discriminate.
Qed.

(** *** The empty document *)

(** X28: the document is the text "[]" exactly when no plain function
    of the class qualifies for an entry. *)
Theorem empty_tools_document (agent_name : string) (cls : class) :
  generate_tools_json_doc agent_name cls = "[]" <->
  (forall m, In m cls -> isfunction m = true -> listed m = false).
Proof.
  unfold generate_tools_json_doc. split.
  - intros H m Hm Hf. destruct (listed m) eqn:Hl; [|reflexivity].
    assert (Hin : In (make_tool_entry agent_name m) (tools_list agent_name cls)).
    { apply tools_list_in. exists m. auto. }
    destruct (tools_list agent_name cls) as [|t ts]; [destruct Hin|].
    exfalso. cbn in H. discriminate H.
  - intros H. destruct (tools_list agent_name cls) as [|t ts] eqn:E; [reflexivity|].
    assert (Hin : In t (tools_list agent_name cls)) by (rewrite E; now left).
    apply tools_list_in in Hin as (m & Hm & Hf & Hl & _).
    rewrite (H m Hm Hf) in Hl. discriminate Hl.
Qed.

End ReflectMore.

(** ** [ContentProcessingAgent] *)

Module AgentFacts.

Import Reflect ReflectScenario Agent.

(** X29: an agent built without tools ([None] or an empty list) hands
    its parent the wrapped kernel functions of [ContentTools] in
    alphabetical order (neither reflection helper among them), the
    content-processing agent name in place of whatever name was passed,
    and a system message: the given one if it is non-empty, the default
    one otherwise. *)
Theorem agent_without_tools_uses_content_tools
  (CONTENT_PROCESSING : string) (decorator : string -> marker)
  (KernelFunction : Type) (from_method : method -> KernelFunction)
  (MemoryStore Client AgentDefinition : Type)
  (session_id user_id : string) (memory_store : MemoryStore)
  (tools : option (list KernelFunction)) (system_message : option string)
  (agent_name : string) (client : option Client) (definition : option AgentDefinition) :
  no_tools tools = true ->
  let b := init CONTENT_PROCESSING decorator KernelFunction from_method
             MemoryStore Client AgentDefinition
             session_id user_id memory_store tools system_message agent_name
             client definition in
  base_tools _ _ _ _ b =
    map from_method
      [ extract_tables_from_pdf_method decorator;
        extract_text_from_pdf_method decorator;
        get_documents_from_sharepoint_method decorator;
        parse_sections_method decorator;
        summarize_text_method decorator ] /\
  base_agent_name _ _ _ _ b = CONTENT_PROCESSING /\
  base_system_message _ _ _ _ b =
    match system_message with
    | None | Some EmptyString => Some (default_system_message (Some agent_name))
    | Some s => Some s
    end.
Proof.
  intros H b. subst b.
  destruct tools as [[|t ts]|]; [ | discriminate H | ];
    (split; [reflexivity | split; [reflexivity|]]);
    destruct system_message as [[|c s]|]; reflexivity.
Qed.

Lemma agent_without_tools_uses_content_tools_witness :
  base_tools _ _ _ _
    (init test_agent_name flag_decorator string name unit unit unit
       "s1" "u1" tt (Some []) None "Custom_Agent" None None) =
    ["extract_tables_from_pdf"; "extract_text_from_pdf";
     "get_documents_from_sharepoint"; "parse_sections"; "summarize_text"] /\
  base_agent_name _ _ _ _
    (init test_agent_name flag_decorator string name unit unit unit
       "s1" "u1" tt (Some []) None "Custom_Agent" None None) = "Content_Processing_Agent".
Proof.
  destruct (agent_without_tools_uses_content_tools test_agent_name flag_decorator
              string name unit unit unit "s1" "u1" tt (Some []) None "Custom_Agent"
              None None eq_refl) as (Htools & Hname & _).
  split; [exact Htools | exact Hname].
Defined.

End AgentFacts.
